(** * Layout-aware type conversion and value packing of the Triton lowering

    A shallow embedding of
    - lib/Conversion/TritonGPUToLLVM/TypeConverter.cpp
      (the tensor-to-struct type converter, [packLLElements] and
      [unpackLLElements]),
    - lib/Dialect/Triton/IR/Ops.cpp (result-type inference of the
      transpose, reduce and expand-dims operations),
    - the logical-to-lowered converter and the conversion target
      ([TritonGPUTypeConverter], [TritonGPUConversionTarget]),
    followed by the properties the specification states about them. *)

From stdpp Require Import base option list strings gmap.

Open Scope string_scope.
Open Scope list_scope.
Set Warnings "-register-all".

(** ** IR types and layout encodings *)

Module IR.

(** Modelled from the spec: the hardware generation tag of a
    matrix-multiply-accumulate layout and its two queries [isVolta] and
    [isAmpere] (methods of MmaEncodingAttr, which is defined with the
    TritonGPU attributes): two mutually exclusive generations. *)
Inductive HardwareGeneration := VoltaClass | AmpereClass.

Definition isVolta (g : HardwareGeneration) : bool :=
  match g with VoltaClass => true | AmpereClass => false end.

Definition isAmpere (g : HardwareGeneration) : bool :=
  match g with AmpereClass => true | VoltaClass => false end.

(** Modelled from the spec: the closed set of layout variants (the attribute
    classes come from generated headers that Dialect.h only includes).  A
    tensor type holds an [option Attribute]: the null attribute is [None]. *)
Inductive Attribute :=
| BlockedEncodingAttr
    (sizePerThread threadsPerWarp warpsPerCTA order : list nat)
| SharedEncodingAttr (vec perPhase maxPhase : nat) (order : list nat)
| MmaEncodingAttr (generation : HardwareGeneration) (warpsPerCTA : list nat)
| SliceEncodingAttr (dim : nat) (parent : Attribute)
| DotOperandEncodingAttr (opIdx : nat) (parent : Attribute).

Inductive FloatKind := F16 | BF16 | F32 | F64 | Float8E4M3FN | Float8E5M2.

(** The types the converters meet: builtin integers and floats, Triton
    pointers, the LLVM dialect's pointers and literal structs, 1-D vectors
    and ranked tensors. *)
Inductive Ty :=
| IntegerType (width : nat)
| FloatType (kind : FloatKind)
| PointerType (pointee : Ty) (addressSpace : nat)
| LLVMPointerType (pointee : Ty) (addressSpace : nat)
| VectorType (numElements : nat) (elementType : Ty)
| LLVMStructType (body : list Ty)
| TensorOf (shape : list Z) (elementType : Ty) (encoding : option Attribute).

(** A [RankedTensorType] handle, as the C++ functions receive it. *)
Record RankedTensorType := mkTensor {
  getShape : list Z;
  getElementType : Ty;
  getEncoding : option Attribute
}.

Definition asType (t : RankedTensorType) : Ty :=
  TensorOf (getShape t) (getElementType t) (getEncoding t).

Definition getRank (t : RankedTensorType) : nat := length (getShape t).

Definition dyn_cast_RankedTensorType (t : Ty) : option RankedTensorType :=
  match t with
  | TensorOf shape elt enc => Some (mkTensor shape elt enc)
  | _ => None
  end.

Definition dyn_cast_LLVMStructType (t : Ty) : option (list Ty) :=
  match t with LLVMStructType body => Some body | _ => None end.

Definition isa_IntegerType (t : Ty) : bool :=
  match t with IntegerType _ => true | _ => false end.

Definition isIntOrFloat (t : Ty) : bool :=
  match t with IntegerType _ | FloatType _ => true | _ => false end.

Definition floatWidth (k : FloatKind) : nat :=
  match k with
  | F16 | BF16 => 16
  | F32 => 32
  | F64 => 64
  | Float8E4M3FN | Float8E5M2 => 8
  end.

(** [Type::getIntOrFloatBitWidth] asserts that the type is an integer or a
    float; [None] is the failed assertion. *)
Definition getIntOrFloatBitWidth (t : Ty) : option nat :=
  match t with
  | IntegerType w => Some w
  | FloatType k => Some (floatWidth k)
  | _ => None
  end.

Global Instance HardwareGeneration_eq_dec : EqDecision HardwareGeneration.
Proof. solve_decision. Defined.

Global Instance FloatKind_eq_dec : EqDecision FloatKind.
Proof. solve_decision. Defined.

Global Instance Attribute_eq_dec : EqDecision Attribute.
Proof. solve_decision. Defined.

Fixpoint Ty_eqb (a b : Ty) {struct a} : bool :=
  match a, b with
  | IntegerType w, IntegerType w' => bool_decide (w = w')
  | FloatType k, FloatType k' => bool_decide (k = k')
  | PointerType p s, PointerType p' s' => Ty_eqb p p' && bool_decide (s = s')
  | LLVMPointerType p s, LLVMPointerType p' s' =>
      Ty_eqb p p' && bool_decide (s = s')
  | VectorType n e, VectorType n' e' => bool_decide (n = n') && Ty_eqb e e'
  | LLVMStructType body, LLVMStructType body' =>
      (fix all2 (xs ys : list Ty) {struct xs} : bool :=
         match xs, ys with
         | [], [] => true
         | x :: xs', y :: ys' => Ty_eqb x y && all2 xs' ys'
         | _, _ => false
         end) body body'
  | TensorOf s e enc, TensorOf s' e' enc' =>
      bool_decide (s = s') && Ty_eqb e e' && bool_decide (enc = enc')
  | _, _ => false
  end.

End IR.
Export IR.

(** ** SSA values, diagnostics and the effects of the C++ code *)

Module Builder.

Definition Location := string.

(** An SSA [Value] handle, identified by what defines it: the null handle,
    a value defined outside the code at hand (a block argument or the result
    of an earlier operation), or the result of one of the three LLVM dialect
    operations the packing code creates.  Each carries its type. *)
Inductive Value :=
| NullValue
| OuterValue (id : nat) (type : Ty)
| UndefOp (type : Ty)
| InsertValueOp (type : Ty) (container value : Value) (position : nat)
| ExtractValueOp (type : Ty) (container : Value) (position : nat).

Definition isNull (v : Value) : bool :=
  match v with NullValue => true | _ => false end.

(** The pieces streamed into a diagnostic with [<<]. *)
Inductive DiagArg :=
| Text (s : string)
| Count (n : nat)
| TypeArg (t : Ty)
| ValueArg (v : Value).

Record Diagnostic := mkDiag {
  diagLoc : Location;
  diagMessage : list DiagArg
}.

(** How a run of the C++ code ends: it returns, it stops on a failed
    assertion (a null handle dereferenced, an array read out of range), or
    [llvm::report_fatal_error] terminates the process. *)
Inductive Res (A : Type) :=
| Ok (a : A)
| Abort
| Fatal (msg : string).
Arguments Ok {A} a.
Arguments Abort {A}.
Arguments Fatal {A} msg.

(** Computations over a state [S]; the state reached is kept also when the
    run stops, so that what was emitted before is still observable. *)
Definition M (S A : Type) : Type := S -> Res A * S.

Definition ret {S A} (a : A) : M S A := fun s => (Ok a, s).

Definition bind {S A B} (m : M S A) (k : A -> M S B) : M S B :=
  fun s =>
    match m s with
    | (Ok a, s') => k a s'
    | (Abort, s') => (Abort, s')
    | (Fatal msg, s') => (Fatal msg, s')
    end.

Definition abort {S A} : M S A := fun s => (Abort, s).

Definition report_fatal_error {S} (msg : string) : M S unit :=
  fun s => (Fatal msg, s).

Definition assert {S} (b : bool) : M S unit :=
  if b then ret tt else abort.

Definition when {S} (b : bool) (m : M S unit) : M S unit :=
  if b then m else ret tt.

(** A result that is [None] when an assertion inside it failed. *)
Definition checked {S A} (o : option A) : M S A :=
  match o with Some a => ret a | None => abort end.

Declare Scope build_scope.
Delimit Scope build_scope with build.
Notation "'let*' x ':=' m 'in' k" := (bind m (fun x => k))
  (at level 10, x name, m at level 100, k at level 200) : build_scope.
Notation "m ';;' k" := (bind m (fun _ => k))
  (at level 100, k at level 200, right associativity) : build_scope.

(** The state of a [ConversionPatternRewriter] as far as the packing code
    touches it: the operations created so far, in order, and the
    diagnostics emitted so far. *)
Record Rewriter := mkRewriter {
  created : list Value;
  diagnostics : list Diagnostic
}.

Definition emitError (loc : Location) (msg : list DiagArg) : M Rewriter unit :=
  fun st => (Ok tt, mkRewriter (created st)
                               (diagnostics st ++ [mkDiag loc msg])).

(** [rewriter.create<OpTy>(loc, ...)]: the operation is appended and its
    result returned. *)
Definition create (op : Value) : M Rewriter Value :=
  fun st => (Ok op, mkRewriter (created st ++ [op]) (diagnostics st)).

(** [Value::getType]: a null handle has no type to read. *)
Definition typeOf (v : Value) : option Ty :=
  match v with
  | NullValue => None
  | OuterValue _ t | UndefOp t | InsertValueOp t _ _ _ | ExtractValueOp t _ _ =>
      Some t
  end.

Definition getType {S} (v : Value) : M S Ty := checked (typeOf v).

(** [ArrayRef::operator[]] *)
Definition at_index {S A} (l : list A) (i : nat) : M S A := checked (l !! i).

End Builder.
Export Builder.

(** ** The type converter of the lowering to LLVM (TypeConverter.cpp) *)

Module TritonGPUToLLVM.

(** Modelled from the spec: the macro [vec_ty(type, num)] of Utility.h, the
    fixed-width vector of [num] elements of type [type]. *)
Definition vec_ty (type : Ty) (num : nat) : Ty := VectorType num type.

Definition i32_ty : Ty := IntegerType 32.

(** Modelled from the spec: [LLVM::isCompatibleType], the test of MLIR's LLVM
    dialect that the base class [LLVMTypeConverter] uses, neither being part
    of the repository.  The spec only says that a type without a rule of its
    own converts "in the obvious elementwise fashion"; the test follows the
    dialect: integers and the floats f16, bf16, f32, f64 are compatible, a
    vector when its elements are such scalars, an LLVM pointer when its
    pointee is, a struct when all its fields are; the 8-bit floats, Triton
    pointers and tensors are not. *)
Fixpoint isCompatibleType (t : Ty) : bool :=
  match t with
  | IntegerType _ => true
  | FloatType k =>
      match k with F16 | BF16 | F32 | F64 => true | _ => false end
  | VectorType _ e =>
      match e with
      | IntegerType _ => true
      | FloatType k =>
          match k with F16 | BF16 | F32 | F64 => true | _ => false end
      | _ => false
      end
  | LLVMPointerType pointee _ => isCompatibleType pointee
  | LLVMStructType body => forallb isCompatibleType body
  | PointerType _ _ | TensorOf _ _ _ => false
  end.

Section Converter.

(** [getElemsPerThread] is declared in Dialect.h and defined elsewhere: the
    converter is parametric in it. *)
Variable getElemsPerThread : Ty -> nat.

Section OneLevel.

(** The recursive call [convertType(...)] of the member functions.  A
    result [None] stands for "no usable type": a null [Type] handle or a
    failed assertion. *)
Variable convertType : Ty -> option Ty.

(** Modelled from the spec: the conversions inherited from the base class
    [LLVMTypeConverter] of MLIR, which is not part of the repository (the
    spec: "otherwise the element type converts in the obvious elementwise
    fashion").  They are tried after the conversions the constructor
    registers, the most recently registered first: a literal struct is kept
    when it is compatible and has its fields converted otherwise; the
    pointee of an LLVM pointer is converted; a compatible type (an integer,
    a float, a vector of such scalars) passes through; any other vector is
    converted element-wise.  Triton pointers and tensors have no inherited
    conversion. *)
Definition convertBaseType (t : Ty) : option Ty :=
  match t with
  | LLVMStructType body =>
      if isCompatibleType t then Some t
      else body' ← mapM convertType body; Some (LLVMStructType body')
  | LLVMPointerType pointee addressSpace =>
      pointee' ← convertType pointee;
      Some (LLVMPointerType pointee' addressSpace)
  | IntegerType _ | FloatType _ => Some t
  | VectorType n e =>
      if isCompatibleType t then Some t
      else e' ← convertType e; Some (VectorType n e')
  | PointerType _ _ | TensorOf _ _ _ => None
  end.

Definition convertTritonPointerType (pointee : Ty) (addressSpace : nat)
  : option Ty :=
  (* Recursively translate pointee type *)
  pointee' ← convertType pointee;
  Some (LLVMPointerType pointee' addressSpace).

(** The table [elemTyMap] of the Ampere branch, keyed by bit width. *)
Definition elemTyMap (elemTy : Ty) : gmap nat Ty :=
  <[8 := vec_ty elemTy 4]>
    (<[16 := vec_ty elemTy 2]> (<[32 := vec_ty elemTy 1]> ∅)).

Definition getElementTypeForStruct (type : RankedTensorType) : option Ty :=
  elemTy ← convertType (getElementType type);
  (* [dyn_cast] on the null attribute is a failed assertion *)
  layout ← getEncoding type;
  match layout with
  | DotOperandEncodingAttr _ parent =>
      match parent with
      | MmaEncodingAttr mmaParent _ =>
          if isAmpere mmaParent then
            bitwidth ← getIntOrFloatBitWidth elemTy;
            (* sub-word integer types need to be packed for perf reasons *)
            if isa_IntegerType elemTy && bool_decide (bitwidth < 32)
            then Some (IntegerType 32)
            else
              (* otherwise, vector types are ok *)
              elemTyMap elemTy !! bitwidth
          else
            (* assert(mmaParent.isVolta()) *)
            if isVolta mmaParent then Some (vec_ty elemTy 2) else None
      | _ => Some elemTy
      end
  | _ => Some elemTy
  end.

(** [getElementTypeForStruct] once more, with its two ways of yielding no
    usable type told apart: [None] is a failed assertion (the element type
    does not convert, [dyn_cast] on the null attribute,
    [getIntOrFloatBitWidth] on a type that is neither integer nor float),
    [Some None] is the null [Type] handle that [elemTyMap.lookup] returns
    for a bit width without an entry. *)
Definition getElementTypeForStruct_handle (type : RankedTensorType)
  : option (option Ty) :=
  elemTy ← convertType (getElementType type);
  layout ← getEncoding type;
  match layout with
  | DotOperandEncodingAttr _ parent =>
      match parent with
      | MmaEncodingAttr mmaParent _ =>
          if isAmpere mmaParent then
            bitwidth ← getIntOrFloatBitWidth elemTy;
            if isa_IntegerType elemTy && bool_decide (bitwidth < 32)
            then Some (Some (IntegerType 32))
            else Some (elemTyMap elemTy !! bitwidth)
          else
            if isVolta mmaParent then Some (Some (vec_ty elemTy 2)) else None
      | _ => Some (Some elemTy)
      end
  | _ => Some (Some elemTy)
  end.

(** The loop [for (i = 0; i < rank * 2; i++) types.push_back(i32)]. *)
Fixpoint push_back_i32 (count : nat) (types : list Ty) : list Ty :=
  match count with
  | 0 => types
  | S count' => push_back_i32 count' (types ++ [i32_ty])
  end.

(** The function does not test [eltType], which may be the null handle.
    The pointer to it is then a failed assertion of [LLVMPointerType::get];
    the struct of [numElementsPerThread] copies of it is the empty struct
    when there are none, and otherwise has null fields, which fails the
    assertion of [LLVMStructType::getLiteral]. *)
Definition convertTritonTensorType (type : RankedTensorType) : option Ty :=
  eltType ← getElementTypeForStruct_handle type;
  match getEncoding type with
  | Some (SharedEncodingAttr _ _ _ _) =>
      eltType ← eltType;
      (* base ptr *)
      let ptrType := LLVMPointerType eltType 3 in
      let types := [ptrType] in
      (* shape dims *)
      let rank := getRank type in
      (* offsets + strides *)
      Some (LLVMStructType (push_back_i32 (rank * 2) types))
  | _ =>
      let numElementsPerThread := getElemsPerThread (asType type) in
      match eltType with
      | Some eltType =>
          Some (LLVMStructType (replicate numElementsPerThread eltType))
      | None =>
          match numElementsPerThread with
          | 0 => Some (LLVMStructType [])
          | S _ => None
          end
      end
  end.

End OneLevel.

(** [convertType]: the conversions registered by the constructor, the most
    recently added one first, then the conversions inherited from the base
    class, which are modelled ([convertBaseType]).  On the types at hand a
    result [None] is always a failed assertion. *)
Fixpoint convertType (t : Ty) : option Ty :=
  match t with
  (* Internally store bfloat16 as int16 *)
  | FloatType BF16 => Some (IntegerType 16)
  (* Internally store float8 as int8 *)
  | FloatType Float8E5M2 => Some (IntegerType 8)
  | FloatType Float8E4M3FN => Some (IntegerType 8)
  | TensorOf shape elt enc =>
      convertTritonTensorType convertType (mkTensor shape elt enc)
  | PointerType pointee addressSpace =>
      convertTritonPointerType convertType pointee addressSpace
  | _ => convertBaseType convertType t
  end.

End Converter.

(** *** Packing and unpacking *)

Section Packing.

Variable getElemsPerThread : Ty -> nat.

Local Open Scope build_scope.

(** Modelled from the spec: the macros [insert_val] and [extract_val] of
    Utility.h, which create an [llvm.insertvalue] and an
    [llvm.extractvalue] operation at the current location. *)
Definition insert_val (structType : Ty) (llvmStruct value : Value)
  (index : nat) : M Rewriter Value :=
  create (InsertValueOp structType llvmStruct value index).

Definition extract_val (type : Ty) (llvmStruct : Value) (index : nat)
  : M Rewriter Value :=
  create (ExtractValueOp type llvmStruct index).

(** The body of [for (const auto &v : llvm::enumerate(resultVals))]. *)
Fixpoint packLoop (loc : Location) (structType : Ty) (elementTypes : list Ty)
  (index : nat) (resultVals : list Value) (llvmStruct : Value)
  : M Rewriter Value :=
  match resultVals with
  | [] => ret llvmStruct
  | value :: rest =>
      when (isNull value)
        (emitError loc
           [Text "cannot insert null values into struct, but tried to insert";
            ValueArg value]);;
      let* valueType := getType value in
      let* expected := at_index elementTypes index in
      when (negb (Ty_eqb valueType expected))
        (emitError loc
           [Text "invalid element type in packLLEElements. Expected ";
            TypeArg expected; Text " but got "; TypeArg valueType]);;
      let* llvmStruct' := insert_val structType llvmStruct value index in
      packLoop loc structType elementTypes (S index) rest llvmStruct'
  end.

Definition packLLElements (loc : Location) (resultVals : list Value)
  (type : Ty) : M Rewriter Value :=
  let* converted := checked (convertType getElemsPerThread type) in
  match dyn_cast_LLVMStructType converted with
  | None =>
      assert (bool_decide (length resultVals = 1));;
      checked (head resultVals)
  | Some elementTypes =>
      let structType := LLVMStructType elementTypes in
      when (negb (bool_decide (length elementTypes = length resultVals)))
        (emitError loc
           [Text " size mismatch when packing elements for LLVM struct";
            Text " expected "; Count (length elementTypes);
            Text " but got "; Count (length resultVals)]);;
      let* llvmStruct := create (UndefOp structType) in
      packLoop loc structType elementTypes 0 resultVals llvmStruct
  end.

(** The loop [for (i = 0; i < types.size(); ++i) results[i] = ...], run
    from index [i] for [count] more rounds. *)
Fixpoint unpackLoop (types : list Ty) (llvmStruct : Value) (i count : nat)
  (results : list Value) : M Rewriter (list Value) :=
  match count with
  | 0 => ret results
  | S count' =>
      let* type := at_index types i in
      let* field := extract_val type llvmStruct i in
      unpackLoop types llvmStruct (S i) count' (<[i := field]> results)
  end.

Definition unpackLLElements (loc : Location) (llvmStruct : Value) (type : Ty)
  : M Rewriter (list Value) :=
  (* assert(bool(llvmStruct) && "can not unpack null values") *)
  assert (negb (isNull llvmStruct));;
  let* structTy := getType llvmStruct in
  match structTy with
  | IntegerType _ | FloatType _ | PointerType _ _ | LLVMPointerType _ _ =>
      ret [llvmStruct]
  | _ =>
      (* [cast<LLVMStructType>] asserts on any other type *)
      let* types := checked (dyn_cast_LLVMStructType structTy) in
      unpackLoop types llvmStruct 0 (length types)
                 (replicate (length types) NullValue)
  end.

End Packing.

End TritonGPUToLLVM.

(** ** Result-type inference of the Triton operations (Ops.cpp) *)

Module TritonOps.

Local Open Scope build_scope.

Inductive LogicalResult := success | failure.

Definition failed (r : LogicalResult) : bool :=
  match r with failure => true | success => false end.

(** The layout-inference interface a dialect implements.  Each method
    returns its [LogicalResult] together with the encoding it leaves in its
    output argument. *)
Class DialectInferLayoutInterface := {
  inferTransOpEncoding : Attribute -> LogicalResult * option Attribute;
  inferReduceOpEncoding :
    Attribute -> Z -> LogicalResult * option Attribute;
  inferExpandDimsOpEncoding :
    Attribute -> Z -> option Location -> LogicalResult * option Attribute
}.

(** The reduction kinds [withIndex] names, and the others. *)
Inductive RedOp :=
| ARGMIN | ARGMAX | ARGUMIN | ARGUMAX | ARGFMIN | ARGFMAX
| ValueRedOp (name : string).

Inductive AttrValue :=
| IntegerAttr (value : Z)
| RedOpAttr (value : RedOp).

(** What [inferReturnTypes] writes to: its output vector and the
    diagnostics of the context. *)
Record InferState := mkInfer {
  inferredReturnTypes : list Ty;
  emitted : list Diagnostic
}.

Definition push_back (t : Ty) : M InferState unit :=
  fun st => (Ok tt, mkInfer (inferredReturnTypes st ++ [t]) (emitted st)).

(** [emitOptionalError(loc, msg)]: the error is emitted when a location is
    present; the result is failure either way. *)
Definition emitOptionalError (loc : option Location) (msg : string)
  : M InferState LogicalResult :=
  fun st =>
    match loc with
    | Some l =>
        (Ok failure,
         mkInfer (inferredReturnTypes st) (emitted st ++ [mkDiag l [Text msg]]))
    | None => (Ok failure, st)
    end.

(** [operands[0].getType().cast<RankedTensorType>()] *)
Definition operandTensorType (operands : list Value) (i : nat)
  : M InferState RankedTensorType :=
  let* arg := at_index operands i in
  let* type := getType arg in
  checked (dyn_cast_RankedTensorType type).

Definition getInt (a : option AttrValue) : M InferState Z :=
  match a with Some (IntegerAttr z) => ret z | _ => abort end.

Definition getRedOp (a : option AttrValue) : M InferState RedOp :=
  match a with Some (RedOpAttr r) => ret r | _ => abort end.

Definition withIndex (redOp : RedOp) : bool :=
  match redOp with
  | ARGMIN | ARGMAX | ARGUMIN | ARGUMAX | ARGFMIN | ARGFMAX => true
  | ValueRedOp _ => false
  end.

Section Inference.

Context {inferLayoutInterface : DialectInferLayoutInterface}.

(*-- TransOp --*)
Definition TransOp_inferReturnTypes (location : option Location)
  (operands : list Value) (attributes : gmap string AttrValue)
  : M InferState LogicalResult :=
  (* type is the same as the input *)
  let* argTy := operandTensorType operands 0 in
  let retShape := reverse (getShape argTy) in
  let retEltTy := getElementType argTy in
  let finish (retEncoding : option Attribute) :=
    push_back (TensorOf retShape retEltTy retEncoding);;
    ret success in
  match getEncoding argTy with
  | Some argEncoding =>
      let '(inferred, retEncoding) := inferTransOpEncoding argEncoding in
      if failed inferred then
        report_fatal_error "failed to infer layout for ReduceOp";;
        ret failure
      else finish retEncoding
  | None => finish None
  end.

(*-- ReduceOp --*)
Definition ReduceOp_inferReturnTypes (location : option Location)
  (operands : list Value) (attributes : gmap string AttrValue)
  : M InferState LogicalResult :=
  (* infer shape *)
  let* argTy := operandTensorType operands 0 in
  let argEltTy := getElementType argTy in
  let i32Ty := IntegerType 32 in
  let* redOp := getRedOp (attributes !! "redOp") in
  let retEltTy := if withIndex redOp then i32Ty else argEltTy in
  let* axis := getInt (attributes !! "axis") in
  (* [retShape.erase(retShape.begin() + axis)] *)
  assert (bool_decide (0 ≤ axis < Z.of_nat (length (getShape argTy)))%Z);;
  let retShape := delete (Z.to_nat axis) (getShape argTy) in
  match retShape with
  | [] =>
      (* 0d-tensor -> scalar *)
      push_back retEltTy;;
      ret success
  | _ =>
      (* nd-tensor where n >= 1 *)
      let finish (retEncoding : option Attribute) :=
        push_back (TensorOf retShape retEltTy retEncoding);;
        ret success in
      (* infer encoding *)
      match getEncoding argTy with
      | Some argEncoding =>
          let '(inferred, retEncoding) :=
            inferReduceOpEncoding argEncoding axis in
          if failed inferred then
            report_fatal_error "failed to infer layout for ReduceOp";;
            ret failure
          else finish retEncoding
      | None => finish None
      end
  end.

(*-- ExpandDimsOp --*)
Definition ExpandDimsOp_inferReturnTypes (loc : option Location)
  (operands : list Value) (attributes : gmap string AttrValue)
  : M InferState LogicalResult :=
  (* infer shape *)
  let* argTy := operandTensorType operands 0 in
  let* axis := getInt (attributes !! "axis") in
  (* [retShape.insert(retShape.begin() + axis, 1)] *)
  assert (bool_decide (0 ≤ axis ≤ Z.of_nat (length (getShape argTy)))%Z);;
  let retShape :=
    (take (Z.to_nat axis) (getShape argTy) ++
     1%Z :: drop (Z.to_nat axis) (getShape argTy))%list in
  let finish (retEncoding : option Attribute) :=
    (* create type *)
    let argEltTy := getElementType argTy in
    push_back (TensorOf retShape argEltTy retEncoding);;
    ret success in
  (* infer encoding *)
  match getEncoding argTy with
  | Some argEncoding =>
      let '(inferred, retEncoding) :=
        inferExpandDimsOpEncoding argEncoding axis loc in
      if failed inferred then
        emitOptionalError loc "failed to infer layout for ExpandDimsOp"
      else finish retEncoding
  | None => finish None
  end.

End Inference.

End TritonOps.

(** ** The logical-to-lowered converter and the conversion target *)

Module TritonGPUConversion.

(** Modelled from the spec: what the builder [BlockedEncodingAttr::get]
    (context, shape, sizePerThread, order, numWarps) promises.  The builder
    is generated from the TritonGPU attribute definitions; the specification
    says of the layout it returns that it is a Blocked layout with the
    size-per-thread and the dimension order it was given, and a
    warps-per-CTA product equal to the warp count. *)
Definition BlockedBuilderContract
  (get : list Z -> list nat -> list nat -> nat -> Attribute) : Prop :=
  forall shape sizePerThread order numWarps,
    exists threadsPerWarp warpsPerCTA,
      get shape sizePerThread order numWarps =
        BlockedEncodingAttr sizePerThread threadsPerWarp warpsPerCTA order /\
      foldr Nat.mul 1 warpsPerCTA = numWarps.

(** Modelled from the spec: one builder that meets the contract, with the
    whole warp (32 lanes) and all the warps on the first dimension. *)
Definition blockedOnFirstDim (shape : list Z) (sizePerThread order : list nat)
  (numWarps : nat) : Attribute :=
  BlockedEncodingAttr sizePerThread
    (32 :: replicate (pred (length shape)) 1)
    (numWarps :: replicate (pred (length shape)) 1)
    order.

Section TypeConverter.

Variable BlockedEncodingAttr_get :
  list Z -> list nat -> list nat -> nat -> Attribute.

(** The member [numWarps] of the converter. *)
Variable numWarps : nat.

(** [std::iota(order.begin(), order.end(), 0)] on a vector of [rank]
    elements. *)
Definition iota (rank : nat) : list nat := seq 0 rank.

(** The conversion registered for [RankedTensorType]. *)
Definition convertRankedTensorType (tensorType : RankedTensorType)
  : RankedTensorType :=
  (* types with encoding are already in the right format *)
  match getEncoding tensorType with
  | Some _ => tensorType
  | None =>
      (* pessimistic values for attributes:
           - 1 element per thread
           - order = arange(rank) *)
      let shape := getShape tensorType in
      let rank := length shape in
      let order := iota rank in
      let sizePerThread := replicate rank 1 in
      let encoding :=
        BlockedEncodingAttr_get shape sizePerThread order numWarps in
      mkTensor shape (getElementType tensorType) (Some encoding)
  end.

(** [convertType]: the tensor conversion, registered last, is tried first;
    every other type falls through to the identity conversion. *)
Definition convertType (type : Ty) : Ty :=
  match dyn_cast_RankedTensorType type with
  | Some tensorType => asType (convertRankedTensorType tensorType)
  | None => type
  end.

(** [TypeConverter::isLegal]: a type is legal when it converts to itself;
    an operation when its operand and result types are; a region when the
    argument types of its blocks are. *)
Definition isLegalType (type : Ty) : bool := Ty_eqb (convertType type) type.

End TypeConverter.

Inductive Dialect :=
| TritonGPUDialect | TritonDialect | ArithDialect | MathDialect
| ControlFlowDialect | SCFDialect
| OtherDialect (name : string).

Inductive OpKind :=
| scf_ExecuteRegionOp | scf_ParallelOp | scf_ReduceOp | scf_ReduceReturnOp
| arith_CmpIOp | arith_CmpFOp
| triton_DotOp
| OtherOp (dialect : Dialect) (name : string).

Global Instance Dialect_eq_dec : EqDecision Dialect.
Proof. solve_decision. Defined.

Global Instance OpKind_eq_dec : EqDecision OpKind.
Proof. solve_decision. Defined.

Definition getDialect (k : OpKind) : Dialect :=
  match k with
  | scf_ExecuteRegionOp | scf_ParallelOp | scf_ReduceOp | scf_ReduceReturnOp =>
      SCFDialect
  | arith_CmpIOp | arith_CmpFOp => ArithDialect
  | triton_DotOp => TritonDialect
  | OtherOp d _ => d
  end.

(** A region, as far as legality looks at it: the argument types of each of
    its blocks. *)
Definition Region := list (list Ty).

Record Operation := mkOp {
  getName : OpKind;
  getOperandTypes : list Ty;
  getResultTypes : list Ty;
  getRegions : list Region
}.

Section Legality.

Variable BlockedEncodingAttr_get :
  list Z -> list nat -> list nat -> nat -> Attribute.
Variable numWarps : nat.

Let isLegalTy := isLegalType BlockedEncodingAttr_get numWarps.

Definition isLegalTypes (types : list Ty) : bool := forallb isLegalTy types.

Definition isLegalOp (op : Operation) : bool :=
  isLegalTypes (getOperandTypes op) && isLegalTypes (getResultTypes op).

Definition isLegalRegion (region : Region) : bool :=
  forallb isLegalTypes region.

(** The three actions of a conversion target.  A dynamic action carries its
    callback; [None] from a callback is a failed cast inside it. *)
Inductive LegalizationAction :=
| Legal
| Dynamic (legalityFn : Operation -> option bool)
| Illegal.

(** The registrations of a target, the most recent first: an operation's
    own action is looked up before that of its dialect. *)
Record ConversionTarget := mkTarget {
  legalOperations : list (OpKind * LegalizationAction);
  legalDialects : list (Dialect * LegalizationAction)
}.

Definition setOpAction (ops : list OpKind) (action : LegalizationAction)
  (target : ConversionTarget) : ConversionTarget :=
  mkTarget (map (fun op => (op, action)) ops ++ legalOperations target)
           (legalDialects target).

Definition setDialectAction (dialects : list Dialect)
  (action : LegalizationAction) (target : ConversionTarget)
  : ConversionTarget :=
  mkTarget (legalOperations target)
           (map (fun d => (d, action)) dialects ++ legalDialects target).

Fixpoint lookupAction {K} `{EqDecision K}
  (table : list (K * LegalizationAction)) (key : K)
  : option LegalizationAction :=
  match table with
  | [] => None
  | (k, action) :: rest =>
      if decide (k = key) then Some action else lookupAction rest key
  end.

Definition getOpInfo (target : ConversionTarget) (op : OpKind)
  : option LegalizationAction :=
  match lookupAction (legalOperations target) op with
  | Some action => Some action
  | None => lookupAction (legalDialects target) (getDialect op)
  end.

(** The verdict of a target on an operation. *)
Inductive Legality := IsLegal | IsIllegal | Unknown | CallbackFailed.

Definition classify (target : ConversionTarget) (op : Operation) : Legality :=
  match getOpInfo target (getName op) with
  | None => Unknown
  | Some Legal => IsLegal
  | Some Illegal => IsIllegal
  | Some (Dynamic legalityFn) =>
      match legalityFn op with
      | Some true => IsLegal
      | Some false => IsIllegal
      | None => CallbackFailed
      end
  end.

(** The callback of the dynamically legal dialects. *)
Definition dialectLegality (op : Operation) : option bool :=
  let hasLegalRegions :=
    foldl (fun hasLegalRegions region =>
             hasLegalRegions && isLegalRegion region)
          true (getRegions op) in
  if hasLegalRegions && isLegalOp op then Some true else Some false.

(** [dotOp.getA().getType().cast<RankedTensorType>().getEncoding()]: the
    matrix operands are operands 0 and 1. *)
Definition operandEncoding (op : Operation) (i : nat)
  : option (option Attribute) :=
  type ← getOperandTypes op !! i;
  tensorType ← dyn_cast_RankedTensorType type;
  Some (getEncoding tensorType).

Definition isa_DotOperandEncodingAttr (a : Attribute) : bool :=
  match a with DotOperandEncodingAttr _ _ => true | _ => false end.

(** The callback registered for [triton::DotOp]. *)
Definition dotOpLegality (dotOp : Operation) : option bool :=
  aEncoding ← operandEncoding dotOp 0;
  bEncoding ← operandEncoding dotOp 1;
  match aEncoding, bEncoding with
  | Some a, Some b =>
      if isa_DotOperandEncodingAttr a && isa_DotOperandEncodingAttr b
      then Some true else Some false
  | _, _ => Some false
  end.

(** The constructor [TritonGPUConversionTarget], registration by
    registration. *)
Definition TritonGPUConversionTarget : ConversionTarget :=
  let target := mkTarget [] [] in
  let target := setDialectAction [TritonGPUDialect] Legal target in
  (* Some ops from SCF are illegal *)
  let target :=
    setOpAction [scf_ExecuteRegionOp; scf_ParallelOp; scf_ReduceOp;
                 scf_ReduceReturnOp] Illegal target in
  (* We have custom versions of some arith operators *)
  let target := setOpAction [arith_CmpIOp; arith_CmpFOp] Illegal target in
  let target :=
    setDialectAction [ArithDialect; MathDialect; TritonDialect;
                      ControlFlowDialect; SCFDialect]
                     (Dynamic dialectLegality) target in
  (* We have requirements for the data layouts *)
  setOpAction [triton_DotOp] (Dynamic dotOpLegality) target.

End Legality.

End TritonGPUConversion.

(** ** What packed values denote *)

Module Semantics.

(** Modelled from the spec: the meaning of the three LLVM dialect operations
    the packing code creates ("constructs an aggregate instance and inserts
    each input value into the aggregate's field i", "extracts each field of
    the aggregate").  An aggregate is the list of its fields. *)
Inductive Data :=
| DUndef
| DScalar (payload : Z)
| DStruct (fields : list Data).

Fixpoint undefOf (t : Ty) : Data :=
  match t with
  | LLVMStructType body => DStruct (map undefOf body)
  | _ => DUndef
  end.

(** The run-time value of an SSA value, given the run-time values [env] of
    the values defined outside. *)
Fixpoint eval (env : nat -> Data) (v : Value) : Data :=
  match v with
  | NullValue => DUndef
  | OuterValue id _ => env id
  | UndefOp t => undefOf t
  | InsertValueOp _ container value position =>
      match eval env container with
      | DStruct fields => DStruct (<[position := eval env value]> fields)
      | _ => DUndef
      end
  | ExtractValueOp _ container position =>
      match eval env container with
      | DStruct fields => default DUndef (fields !! position)
      | _ => DUndef
      end
  end.

(** A run-time value of an aggregate type has one field per field of the
    type, each of the field's type. *)
Fixpoint hasType (d : Data) (t : Ty) {struct t} : Prop :=
  match t with
  | LLVMStructType body =>
      match d with
      | DStruct fields =>
          (fix each (fields : list Data) (body : list Ty) {struct body} :=
             match fields, body with
             | [], [] => True
             | f :: fields', b :: body' => hasType f b /\ each fields' body'
             | _, _ => False
             end) fields body
      | _ => False
      end
  | _ => match d with DStruct _ => False | _ => True end
  end.

End Semantics.

(** ** The remaining helpers, builders and verifiers of Ops.cpp *)

Module TritonOpsMore.
Import TritonOps.

Local Open Scope build_scope.

(*-- Type inference --*)
Definition getI1SameShape (type : Ty) : Ty :=
  let i1Type := IntegerType 1 in
  match dyn_cast_RankedTensorType type with
  | Some tensorType =>
      TensorOf (getShape tensorType) i1Type (getEncoding tensorType)
  | None => i1Type
  end.

Definition getI32SameShape (type : Ty) : Ty :=
  let i32Type := IntegerType 32 in
  match dyn_cast_RankedTensorType type with
  | Some tensorType =>
      TensorOf (getShape tensorType) i32Type (getEncoding tensorType)
  | None => i32Type
  end.

Definition getPointerTypeSameShape (type : Ty) : Ty :=
  match dyn_cast_RankedTensorType type with
  | Some tensorType =>
      let elementType := getElementType tensorType in
      let shape := getShape tensorType in
      let ptrType := PointerType elementType 1 in
      TensorOf shape ptrType (getEncoding tensorType)
  | None => PointerType type 1
  end.

(** [type.cast<PointerType>().getPointeeType()]; [None] is the failed
    cast. *)
Definition getPointeeType (type : Ty) : option Ty :=
  match type with PointerType pointee _ => Some pointee | _ => None end.

(*-- LoadOp --*)
Definition getLoadOpResultType (ptrType : Ty) : option Ty :=
  match dyn_cast_RankedTensorType ptrType with
  | None => getPointeeType ptrType
  | Some ptrTensorType =>
      let shape := getShape ptrTensorType in
      elementType ← getPointeeType (getElementType ptrTensorType);
      Some (TensorOf shape elementType None)
  end.

(** The part of [LoadOp::parse] between the parsing of the operand list and
    the resolution of the operands: from the number of operands read and
    the result type, the types the operands must have and the
    operand_segment_sizes attribute. *)
Definition LoadOp_parse_operandTypes (allOperands : nat) (resultType : Ty)
  : list Ty * list nat :=
  let operandTypes := [getPointerTypeSameShape resultType] (* ptr *) in
  let '(operandTypes, hasMask) :=
    if bool_decide (2 <= allOperands)
    then (operandTypes ++ [getI1SameShape resultType] (* mask *), 1)
    else (operandTypes, 0) in
  let '(operandTypes, hasOther) :=
    if bool_decide (3 <= allOperands)
    then (operandTypes ++ [resultType] (* other *), 1)
    else (operandTypes, 0) in
  (operandTypes, [1; hasMask; hasOther]).

(** The same part of [StoreOp::parse]. *)
Definition StoreOp_parse_operandTypes (allOperands : nat) (valueType : Ty)
  : list Ty :=
  let operandTypes :=
    [getPointerTypeSameShape valueType (* ptr *); valueType (* value *)] in
  if bool_decide (3 <= allOperands)
  then operandTypes ++ [getI1SameShape valueType] (* mask *)
  else operandTypes.

Section Build.

(** The enumerations of OpsEnums, which the builder only stores. *)
Variable CacheModifier : Type.
Variable EvictionPolicy : Type.

Inductive OpAttr :=
| DenseI32ArrayAttr (values : list nat)
| CacheModifierAttr (cache : CacheModifier)
| EvictionPolicyAttr (evict : EvictionPolicy)
| BoolAttr (b : bool).

(** The attribute names the generated accessors return. *)
Inductive AttrName :=
| OperandSegmentSizesAttrName | CacheAttrName | EvictAttrName
| IsVolatileAttrName.

Record OperationState := mkState {
  stateOperands : list Value;
  stateAttributes : list (AttrName * OpAttr);
  stateTypes : list Ty
}.

Definition addOperands (v : Value) (state : OperationState) : OperationState :=
  mkState (stateOperands state ++ [v]) (stateAttributes state)
          (stateTypes state).

Definition addAttribute (name : AttrName) (a : OpAttr)
  (state : OperationState) : OperationState :=
  mkState (stateOperands state) (stateAttributes state ++ [(name, a)])
          (stateTypes state).

Definition addTypes (types : list Ty) (state : OperationState)
  : OperationState :=
  mkState (stateOperands state) (stateAttributes state)
          (stateTypes state ++ types).

(** [LoadOp::build] with a mask and an other value, either of which may be
    the null value.  [None]: a cast failed before the state was touched. *)
Definition LoadOp_build (state : OperationState) (ptr mask other : Value)
  (cache : CacheModifier) (evict : EvictionPolicy) (isVolatile : bool)
  : option OperationState :=
  ptrType ← typeOf ptr;
  resultType ← getLoadOpResultType ptrType;
  let state := addOperands ptr state in
  let state :=
    if negb (isNull mask) then
      let state := addOperands mask state in
      if negb (isNull other) then addOperands other state else state
    else state in
  let state :=
    addAttribute OperandSegmentSizesAttrName
      (DenseI32ArrayAttr [1; if negb (isNull mask) then 1 else 0;
                          if negb (isNull other) then 1 else 0]) state in
  let state := addAttribute CacheAttrName (CacheModifierAttr cache) state in
  let state := addAttribute EvictAttrName (EvictionPolicyAttr evict) state in
  let state := addAttribute IsVolatileAttrName (BoolAttr isVolatile) state in
  Some (addTypes [resultType] state).

(** The two shorter overloads. *)
Definition LoadOp_build_ptr (state : OperationState) (ptr : Value)
  (cache : CacheModifier) (evict : EvictionPolicy) (isVolatile : bool) :=
  LoadOp_build state ptr NullValue NullValue cache evict isVolatile.

Definition LoadOp_build_mask (state : OperationState) (ptr mask : Value)
  (cache : CacheModifier) (evict : EvictionPolicy) (isVolatile : bool) :=
  LoadOp_build state ptr mask NullValue cache evict isVolatile.

End Build.

(*-- FpToFpOp --*)
Section FpToFp.

(** [type.dyn_cast<mlir::triton::Float8Type>()]: the dialect's 8-bit float
    type is declared in Types.h; the test for it is a parameter. *)
Variable isFloat8Type : Ty -> bool.

Definition isFloatOfKind (k : FloatKind) (t : Ty) : bool :=
  match t with FloatType k' => bool_decide (k' = k) | _ => false end.

Definition isF16 := isFloatOfKind F16.
Definition isBF16 := isFloatOfKind BF16.
Definition isF32 := isFloatOfKind F32.
Definition isF64 := isFloatOfKind F64.

Definition areCastCompatible (inputs outputs : list Ty) : bool :=
  match inputs, outputs with
  | [srcEltType], [dstEltType] =>
      let '(srcEltType, dstEltType) :=
        match dyn_cast_RankedTensorType srcEltType,
              dyn_cast_RankedTensorType dstEltType with
        | Some srcTensorType, Some dstTensorType =>
            (getElementType srcTensorType, getElementType dstTensorType)
        | _, _ => (srcEltType, dstEltType)
        end in
      (* Check whether fp8 <=> fp16, bf16, f32, f64 *)
      (* Make [srcEltType] always the fp8 side *)
      let '(srcEltType, dstEltType) :=
        if isFloat8Type dstEltType then (dstEltType, srcEltType)
        else (srcEltType, dstEltType) in
      if negb (isFloat8Type srcEltType) then false
      else isF16 dstEltType || isBF16 dstEltType || isF32 dstEltType ||
           isF64 dstEltType
  | _, _ => (* inputs.size() != 1 || outputs.size() != 1 *) false
  end.

End FpToFp.

(*-- DotOp --*)
Section DotInference.

(** [inferDotOpEncoding] of the dialect's layout interface: operand
    encoding, operand index, result encoding, location. *)
Variable inferDotOpEncoding :
  Attribute -> nat -> option Attribute -> option Location -> LogicalResult.

Definition DotOp_inferReturnTypes (location : option Location)
  (operands : list Value) (attributes : gmap string AttrValue)
  : M InferState LogicalResult :=
  (* type is the same as the accumulator *)
  let* accTy := operandTensorType operands 2 in
  push_back (asType accTy);;
  (* verify encodings *)
  let* aTy := operandTensorType operands 0 in
  let* bTy := operandTensorType operands 1 in
  let aEnc := getEncoding aTy in
  let bEnc := getEncoding bTy in
  let retEnc := getEncoding accTy in
  match aEnc with
  | Some aEnc =>
      let* bEnc := checked bEnc (* assert(bEnc) *) in
      if failed (inferDotOpEncoding aEnc 0 retEnc location) then ret failure
      else if failed (inferDotOpEncoding bEnc 1 retEnc location)
      then ret failure
      else ret success
  | None => ret success
  end.

End DotInference.

End TritonOpsMore.

(** * Properties *)

(** ** Element-type resolution and the physical type of a tensor *)

Module TypeConverterProps.
Import TritonGPUToLLVM.

(** A converter to run examples with: every thread holds four elements. *)
Definition fourPerThread : Ty -> nat := fun _ => 4.

Definition dotOperandOf (generation : HardwareGeneration) (elt : Ty)
  : RankedTensorType :=
  mkTensor [16%Z; 16%Z] elt
    (Some (DotOperandEncodingAttr 0 (MmaEncodingAttr generation [2; 2]))).

Definition sharedTensor (shape : list Z) (elt : Ty) : RankedTensorType :=
  mkTensor shape elt (Some (SharedEncodingAttr 1 1 1 (seq 0 (length shape)))).

(** The address space of the first field of a struct, when that field is a
    pointer. *)
Definition basePointerAddressSpace (t : Ty) : option nat :=
  match t with
  | LLVMStructType (LLVMPointerType _ addressSpace :: _) => Some addressSpace
  | _ => None
  end.

Lemma push_back_i32_replicate count types :
  push_back_i32 count types = types ++ replicate count i32_ty.
Proof.
  revert types. induction count as [|count IH]; intros types; simpl.
  - by rewrite app_nil_r.
  - rewrite IH, <- app_assoc. done.
Qed.

Lemma elemTyMap_lookup_32 elemTy : elemTyMap elemTy !! 32 = Some (vec_ty elemTy 1).
Proof. reflexivity. Qed.

Lemma elemTyMap_lookup_16 elemTy : elemTyMap elemTy !! 16 = Some (vec_ty elemTy 2).
Proof. reflexivity. Qed.

Lemma elemTyMap_lookup_8 elemTy : elemTyMap elemTy !! 8 = Some (vec_ty elemTy 4).
Proof. reflexivity. Qed.

Lemma elemTyMap_lookup_other elemTy w :
  w ≠ 8 -> w ≠ 16 -> w ≠ 32 -> elemTyMap elemTy !! w = None.
Proof.
  intros H8 H16 H32. unfold elemTyMap.
  rewrite !lookup_insert_ne by done. apply lookup_empty.
Qed.

(** The usable result of element-type resolution is what the resolution
    returns when it is neither a failed assertion nor the null handle. *)
Lemma getElementTypeForStruct_usable conv type :
  getElementTypeForStruct conv type =
    getElementTypeForStruct_handle conv type ≫= id.
Proof.
  unfold getElementTypeForStruct, getElementTypeForStruct_handle.
  destruct (conv (getElementType type)) as [elemTy|]; [|done]. simpl.
  destruct (getEncoding type) as [[| | | |opIdx []]|]; simpl; try done.
  destruct generation; simpl; [done|].
  destruct (getIntOrFloatBitWidth elemTy) as [bitwidth|]; [|done]. simpl.
  by destruct (isa_IntegerType elemTy && bool_decide (bitwidth < 32)).
Qed.

Lemma getElementTypeForStruct_handle_Some conv type eltType :
  getElementTypeForStruct conv type = Some eltType ->
  getElementTypeForStruct_handle conv type = Some (Some eltType).
Proof.
  rewrite getElementTypeForStruct_usable.
  by destruct (getElementTypeForStruct_handle conv type) as [[?|]|];
    simpl; intros [= ->].
Qed.

Lemma getElementTypeForStruct_handle_None conv type :
  getElementTypeForStruct_handle conv type = None ->
  getElementTypeForStruct conv type = None.
Proof. rewrite getElementTypeForStruct_usable. by intros ->. Qed.

(** Element-type resolution on an Ampere-class operand, as one equation on
    the converted element type. *)
Lemma getElementTypeForStruct_ampere conv type opIdx warps elemTy bitwidth :
  getEncoding type =
    Some (DotOperandEncodingAttr opIdx (MmaEncodingAttr AmpereClass warps)) ->
  conv (getElementType type) = Some elemTy ->
  getIntOrFloatBitWidth elemTy = Some bitwidth ->
  getElementTypeForStruct conv type =
    if isa_IntegerType elemTy && bool_decide (bitwidth < 32)
    then Some (IntegerType 32)
    else elemTyMap elemTy !! bitwidth.
Proof.
  intros Henc Hconv Hwidth. unfold getElementTypeForStruct.
  rewrite Hconv, Henc. simpl. rewrite Hwidth. done.
Qed.

(** C2, as the specification states it, fails: on an Ampere-class operand
    an 8-bit integer element resolves to a 32-bit integer, not to any 4-wide
    vector, and a 32-bit float resolves to a 1-wide vector, which is not the
    scalar type itself. *)
Lemma C2_int8_is_widened_not_vectorised :
  getElementTypeForStruct (convertType fourPerThread)
    (dotOperandOf AmpereClass (IntegerType 8)) = Some (IntegerType 32) /\
  (forall e,
     getElementTypeForStruct (convertType fourPerThread)
       (dotOperandOf AmpereClass (IntegerType 8)) <> Some (vec_ty e 4)) /\
  getElementTypeForStruct (convertType fourPerThread)
    (dotOperandOf AmpereClass (FloatType F32)) <> Some (FloatType F32).
Proof. repeat split; intros; vm_compute; discriminate. Qed.

(** C2 (amended): on a DotOperand layout over an Ampere-class parent, the
    8-bit integer type and the 16-bit integer types (i16, and bf16, which is
    stored as i16) resolve to the 32-bit integer type; the 16-bit float f16
    resolves to a 2-wide vector of f16; a 32-bit element type (i32, f32)
    resolves to a 1-wide vector of that type. *)
Theorem C2_ampere_resolution_table gept shape opIdx warps :
  let operand elt :=
    mkTensor shape elt
      (Some (DotOperandEncodingAttr opIdx
               (MmaEncodingAttr AmpereClass warps))) in
  let resolve elt := getElementTypeForStruct (convertType gept) (operand elt) in
  resolve (IntegerType 8) = Some (IntegerType 32) /\
  resolve (IntegerType 16) = Some (IntegerType 32) /\
  resolve (FloatType BF16) = Some (IntegerType 32) /\
  resolve (FloatType F16) = Some (vec_ty (FloatType F16) 2) /\
  resolve (IntegerType 32) = Some (vec_ty (IntegerType 32) 1) /\
  resolve (FloatType F32) = Some (vec_ty (FloatType F32) 1).
Proof. repeat split. Qed.

(** C3, as the specification states it, fails on the non-integer element
    types that the converter stores as integers: bf16 (16 bits) and the
    8-bit float formats resolve to the 32-bit integer type, not to a vector
    of any width. *)
Lemma C3_stored_as_integer_floats_are_widened :
  getElementTypeForStruct (convertType fourPerThread)
    (dotOperandOf AmpereClass (FloatType BF16)) = Some (IntegerType 32) /\
  getElementTypeForStruct (convertType fourPerThread)
    (dotOperandOf AmpereClass (FloatType Float8E5M2)) = Some (IntegerType 32) /\
  (forall e n,
     getElementTypeForStruct (convertType fourPerThread)
       (dotOperandOf AmpereClass (FloatType BF16)) <> Some (vec_ty e n)) /\
  (forall e n,
     getElementTypeForStruct (convertType fourPerThread)
       (dotOperandOf AmpereClass (FloatType Float8E5M2)) <> Some (vec_ty e n)).
Proof. repeat split; intros; vm_compute; discriminate. Qed.

(** The element types the converter stores as an integer of fewer than 32
    bits: the integers below 32 bits, bf16 and the two 8-bit floats. *)
Definition storedAsNarrowInteger (elt : Ty) : bool :=
  match elt with
  | IntegerType w => bool_decide (w < 32)
  | FloatType BF16 | FloatType Float8E4M3FN | FloatType Float8E5M2 => true
  | _ => false
  end.

(** C3 (amended): on a DotOperand layout over an Ampere-class parent,
    element-type resolution acts on the converted (stored) element type,
    whatever the element conversion it is run with.  An element type whose
    converted type is an integer of bit width below 32 resolves to the
    32-bit integer type; an element type whose converted type is not an
    integer and has bit width 32, 16 or 8 resolves to a vector of the
    converted type of width 1, 2 or 4.  Under the converter's own conversion
    the first case covers every integer type below 32 bits and also bf16 and
    the 8-bit floats, which it stores as integers. *)
Theorem C3_ampere_widening_and_vectors :
  (forall (conv : Ty -> option Ty) type opIdx warps elemTy bitwidth,
     getEncoding type =
       Some (DotOperandEncodingAttr opIdx
               (MmaEncodingAttr AmpereClass warps)) ->
     conv (getElementType type) = Some elemTy ->
     getIntOrFloatBitWidth elemTy = Some bitwidth ->
     (isa_IntegerType elemTy = true -> bitwidth < 32 ->
        getElementTypeForStruct conv type = Some (IntegerType 32)) /\
     (isa_IntegerType elemTy = false ->
        (bitwidth = 32 ->
           getElementTypeForStruct conv type = Some (vec_ty elemTy 1)) /\
        (bitwidth = 16 ->
           getElementTypeForStruct conv type = Some (vec_ty elemTy 2)) /\
        (bitwidth = 8 ->
           getElementTypeForStruct conv type = Some (vec_ty elemTy 4)))) /\
  (forall gept shape opIdx warps elt,
     storedAsNarrowInteger elt = true ->
     getElementTypeForStruct (convertType gept)
       (mkTensor shape elt
          (Some (DotOperandEncodingAttr opIdx
                   (MmaEncodingAttr AmpereClass warps)))) =
       Some (IntegerType 32)).
Proof.
  split.
  - intros conv type opIdx warps elemTy bitwidth Henc Hconv Hwidth.
    rewrite (getElementTypeForStruct_ampere _ _ _ _ _ _ Henc Hconv Hwidth).
    split.
    + intros -> Hlt. by rewrite bool_decide_true.
    + intros ->. simpl. by repeat split; intros ->.
  - intros gept shape opIdx warps elt Hnarrow.
    destruct elt as [w|[]| | | | |]; try discriminate Hnarrow; try done.
    apply bool_decide_eq_true in Hnarrow.
    unfold getElementTypeForStruct. simpl. by rewrite bool_decide_true.
Qed.

Lemma C3_ampere_widening_and_vectors_witness :
  getElementTypeForStruct (convertType fourPerThread)
    (dotOperandOf AmpereClass (FloatType F16)) =
    Some (vec_ty (FloatType F16) 2) /\
  getElementTypeForStruct (fun t => Some t)
    (dotOperandOf AmpereClass (FloatType Float8E5M2)) =
    Some (vec_ty (FloatType Float8E5M2) 4) /\
  getElementTypeForStruct (convertType fourPerThread)
    (dotOperandOf AmpereClass (IntegerType 1)) = Some (IntegerType 32) /\
  getElementTypeForStruct (convertType fourPerThread)
    (dotOperandOf AmpereClass (FloatType Float8E4M3FN)) =
    Some (IntegerType 32).
Proof.
  destruct C3_ampere_widening_and_vectors as [Hany Hown].
  split; [|split; [|split]].
  - refine (proj1 (proj2 (proj2 (Hany (convertType fourPerThread)
      (dotOperandOf AmpereClass (FloatType F16)) 0 [2; 2] (FloatType F16) 16
      _ _ _) _)) _); reflexivity.
  - refine (proj2 (proj2 (proj2 (Hany (fun t => Some t)
      (dotOperandOf AmpereClass (FloatType Float8E5M2)) 0 [2; 2]
      (FloatType Float8E5M2) 8 _ _ _) _)) _); reflexivity.
  - refine (proj1 (Hany (convertType fourPerThread)
      (dotOperandOf AmpereClass (IntegerType 1)) 0 [2; 2] (IntegerType 1) 1
      _ _ _) _ _); [reflexivity .. | lia].
  - apply (Hown fourPerThread [16%Z; 16%Z] 0 [2; 2]
             (FloatType Float8E4M3FN) eq_refl).
Defined.

(** Every integer element type of bit width below 32 is its own converted
    type, and is widened. *)
Lemma ampere_integer_widened gept shape opIdx warps w :
  w < 32 ->
  getElementTypeForStruct (convertType gept)
    (mkTensor shape (IntegerType w)
       (Some (DotOperandEncodingAttr opIdx
                (MmaEncodingAttr AmpereClass warps)))) = Some (IntegerType 32).
Proof.
  intros Hlt. unfold getElementTypeForStruct. simpl.
  by rewrite bool_decide_true.
Qed.

(** C8: on a DotOperand layout over a Volta-class parent, element-type
    resolution returns the 2-wide vector of the converted element type,
    whatever the element type and its bit width. *)
Theorem C8_volta_two_wide gept type opIdx warps elemTy :
  getEncoding type =
    Some (DotOperandEncodingAttr opIdx (MmaEncodingAttr VoltaClass warps)) ->
  convertType gept (getElementType type) = Some elemTy ->
  getElementTypeForStruct (convertType gept) type = Some (vec_ty elemTy 2).
Proof.
  intros Henc Hconv. unfold getElementTypeForStruct.
  by rewrite Hconv, Henc.
Qed.

Lemma C8_volta_two_wide_witness :
  getElementTypeForStruct (convertType fourPerThread)
    (dotOperandOf VoltaClass (FloatType F64)) =
    Some (vec_ty (FloatType F64) 2).
Proof.
  apply (C8_volta_two_wide fourPerThread
           (dotOperandOf VoltaClass (FloatType F64)) 0 [2; 2]); reflexivity.
Defined.

(** C7: for a tensor of rank r with a Shared layout, the converter returns,
    whatever elements-per-thread says, the struct made of one pointer in
    address space 3 to the resolved element type followed by 2*r 32-bit
    integers. *)
Theorem C7_shared_struct gept type vec perPhase maxPhase order eltType :
  getEncoding type = Some (SharedEncodingAttr vec perPhase maxPhase order) ->
  convertType gept (getElementType type) = Some eltType ->
  getElementTypeForStruct (convertType gept) type = Some eltType /\
  convertTritonTensorType gept (convertType gept) type =
    Some (LLVMStructType
            (LLVMPointerType eltType 3 ::
             replicate (2 * getRank type) (IntegerType 32))) /\
  convertType gept (asType type) =
    convertTritonTensorType gept (convertType gept) type.
Proof.
  intros Henc Hconv.
  assert (getElementTypeForStruct (convertType gept) type = Some eltType)
    as Helt.
  { unfold getElementTypeForStruct. by rewrite Hconv, Henc. }
  split; [done|]. split.
  - unfold convertTritonTensorType.
    rewrite (getElementTypeForStruct_handle_Some _ _ _ Helt), Henc. simpl.
    rewrite push_back_i32_replicate. simpl.
    by rewrite (Nat.mul_comm (getRank type) 2).
  - by destruct type.
Qed.

Lemma C7_shared_struct_witness :
  convertTritonTensorType fourPerThread (convertType fourPerThread)
    (sharedTensor [64%Z; 32%Z] (FloatType F16)) =
  Some (LLVMStructType
          [LLVMPointerType (FloatType F16) 3;
           IntegerType 32; IntegerType 32; IntegerType 32; IntegerType 32]).
Proof.
  apply (proj1 (proj2 (C7_shared_struct fourPerThread
    (sharedTensor [64%Z; 32%Z] (FloatType F16)) 1 1 1 [0; 1] (FloatType F16)
    eq_refl eq_refl))).
Defined.

(** C10: for every Shared-layout tensor type whose element type converts,
    the first field of the struct the converter returns is a pointer in
    address space 3, whatever the element type, the rank and
    elements-per-thread. *)
Theorem C10_shared_base_pointer_address_space
  gept type vec perPhase maxPhase order eltType :
  getEncoding type = Some (SharedEncodingAttr vec perPhase maxPhase order) ->
  convertType gept (getElementType type) = Some eltType ->
  convertTritonTensorType gept (convertType gept) type
    ≫= basePointerAddressSpace = Some 3.
Proof.
  intros Henc Hconv.
  unfold convertTritonTensorType, getElementTypeForStruct_handle.
  rewrite Hconv, Henc. simpl. rewrite push_back_i32_replicate. done.
Qed.

Lemma C10_shared_base_pointer_address_space_witness :
  convertTritonTensorType fourPerThread (convertType fourPerThread)
    (sharedTensor [8%Z] (PointerType (IntegerType 8) 1))
    ≫= basePointerAddressSpace = Some 3.
Proof.
  apply (C10_shared_base_pointer_address_space fourPerThread
    (sharedTensor [8%Z] (PointerType (IntegerType 8) 1)) 1 1 1 [0]
    (LLVMPointerType (IntegerType 8) 1)); reflexivity.
Defined.

End TypeConverterProps.

(** ** Packing and unpacking *)

Module PackingProps.
Import TritonGPUToLLVM Semantics.

Lemma Ty_eqb_refl : forall t, Ty_eqb t t = true.
Proof.
  fix IH 1. intros [w|k|p s|p s|n e|body|s e enc]; simpl.
  - by apply bool_decide_eq_true.
  - by apply bool_decide_eq_true.
  - rewrite IH. by apply bool_decide_eq_true.
  - rewrite IH. by apply bool_decide_eq_true.
  - rewrite IH, bool_decide_true; done.
  - induction body as [|x xs IHxs]; [done|].
    rewrite (IH x). exact IHxs.
  - rewrite IH, !bool_decide_true; done.
Qed.

Lemma Ty_eqb_eq : forall a b, Ty_eqb a b = true -> a = b.
Proof.
  fix IH 1.
  intros [w|k|p s|p s|n e|body|s e enc] [w'|k'|p' s'|p' s'|n' e'|body'|s' e' enc'];
    simpl; try discriminate; intros H;
    repeat match goal with
           | H : _ && _ = true |- _ => apply andb_prop in H as [? ?]
           | H : bool_decide _ = true |- _ => apply bool_decide_eq_true in H
           | H : Ty_eqb _ _ = true |- _ => apply IH in H
           end; subst; try done.
  f_equal. revert body' H.
  induction body as [|x xs IHxs]; intros [|y ys] H; try discriminate; [done|].
  apply andb_prop in H as [Hx Hxs].
  rewrite (IH x y Hx), (IHxs ys Hxs). done.
Qed.

(** [Ty_eqb] decides the equality of types, which [!=] tests in the C++. *)
Lemma Ty_eqb_spec a b : Ty_eqb a b = true <-> a = b.
Proof. split; [apply Ty_eqb_eq|intros ->; apply Ty_eqb_refl]. Qed.

(** The values of a sequence have, in order, the types of a field list. *)
Definition wellTyped (vals : list Value) (types : list Ty) : Prop :=
  Forall2 (fun v t => typeOf v = Some t) vals types.

(** The aggregate the insertions build, and the operations they create. *)
Fixpoint packedValue (structType : Ty) (index : nat) (vals : list Value)
  (cur : Value) : Value :=
  match vals with
  | [] => cur
  | v :: rest =>
      packedValue structType (S index) rest
        (InsertValueOp structType cur v index)
  end.

Fixpoint insertChain (structType : Ty) (index : nat) (vals : list Value)
  (cur : Value) : list Value :=
  match vals with
  | [] => []
  | v :: rest =>
      let op := InsertValueOp structType cur v index in
      op :: insertChain structType (S index) rest op
  end.

(** The extractions of the fields of [llvmStruct] from position [i] on. *)
Fixpoint extractFrom (llvmStruct : Value) (i : nat) (types : list Ty)
  : list Value :=
  match types with
  | [] => []
  | t :: rest =>
      ExtractValueOp t llvmStruct i :: extractFrom llvmStruct (S i) rest
  end.

Lemma drop_cons_inv {A} (l : list A) n x l' :
  drop n l = x :: l' -> l !! n = Some x /\ drop (S n) l = l'.
Proof.
  intros Hdrop.
  assert (l !! n = Some x) as Hn.
  { rewrite <- (Nat.add_0_r n), <- lookup_drop, Hdrop. done. }
  split; [done|]. rewrite (drop_S _ _ _ Hn) in Hdrop. congruence.
Qed.

Lemma packLoop_wellTyped loc structType elementTypes vals :
  forall index cur st types rest,
    drop index elementTypes = types ++ rest ->
    wellTyped vals types ->
    packLoop loc structType elementTypes index vals cur st =
      (Ok (packedValue structType index vals cur),
       mkRewriter (created st ++ insertChain structType index vals cur)
                  (diagnostics st)).
Proof.
  induction vals as [|v vals IH]; intros index cur st types rest Hdrop Hty.
  - simpl. rewrite app_nil_r. by destruct st.
  - inversion Hty as [|? t ? types' Hv Hrest]; subst.
    apply drop_cons_inv in Hdrop as [Hidx Hdrop].
    cbn [packLoop packedValue insertChain].
    destruct v; try discriminate; simpl in Hv; injection Hv as ->;
      (unfold bind, when, getType, at_index, checked, insert_val, create;
       cbn [isNull typeOf ret]; rewrite Hidx; cbn [ret];
       rewrite Ty_eqb_refl; cbn [negb ret];
       erewrite IH by eauto; cbn [created diagnostics];
       by rewrite <- app_assoc).
Qed.

Lemma packedValue_typeOf structType index vals cur :
  typeOf cur = Some structType ->
  typeOf (packedValue structType index vals cur) = Some structType.
Proof.
  revert index cur. induction vals as [|v vals IH]; intros index cur Hcur.
  - done.
  - simpl. by apply IH.
Qed.

Lemma eval_packedValue env structType vals :
  forall index cur fields,
    eval env cur = DStruct fields ->
    index + length vals <= length fields ->
    eval env (packedValue structType index vals cur) =
      DStruct (take index fields ++ (eval env <$> vals) ++
               drop (index + length vals) fields).
Proof.
  induction vals as [|v vals IH]; intros index cur fields Hcur Hlen.
  - simpl. by rewrite Nat.add_0_r, take_drop.
  - simpl in *.
    rewrite (IH (S index) _ (<[index := eval env v]> fields)).
    + f_equal.
      destruct (lookup_lt_is_Some_2 fields index) as [x Hx]; [lia|].
      rewrite (take_S_r _ _ (eval env v)).
      * rewrite take_insert_ge by lia.
        rewrite drop_insert_lt by lia.
        rewrite <- app_assoc. simpl.
        by replace (index + S (length vals)) with (S (index + length vals))
          by lia.
      * apply list_lookup_insert_eq. lia.
    + simpl. by rewrite Hcur.
    + rewrite length_insert. lia.
Qed.

Lemma unpackLoop_run types llvmStruct :
  forall count i results st,
    i + count = length types ->
    length results = length types ->
    unpackLoop types llvmStruct i count results st =
      (Ok (take i results ++ extractFrom llvmStruct i (drop i types)),
       mkRewriter (created st ++ extractFrom llvmStruct i (drop i types))
                  (diagnostics st)).
Proof.
  induction count as [|count IH]; intros i results st Hi Hlen.
  - rewrite drop_ge by lia. rewrite take_ge by lia. simpl.
    rewrite !app_nil_r. by destruct st.
  - destruct (lookup_lt_is_Some_2 types i) as [t Ht]; [lia|].
    cbn [unpackLoop]. unfold bind, at_index, checked, extract_val, create.
    rewrite Ht. cbn [ret].
    rewrite IH by (rewrite ?length_insert; lia).
    rewrite (drop_S _ _ _ Ht). cbn [extractFrom created diagnostics].
    rewrite (take_S_r _ _ (ExtractValueOp t llvmStruct i))
      by (apply list_lookup_insert_eq; lia).
    rewrite take_insert_ge by lia.
    by rewrite <- !app_assoc.
Qed.

Lemma unpackLLElements_struct loc llvmStruct type body st :
  typeOf llvmStruct = Some (LLVMStructType body) ->
  unpackLLElements loc llvmStruct type st =
    (Ok (extractFrom llvmStruct 0 body),
     mkRewriter (created st ++ extractFrom llvmStruct 0 body)
                (diagnostics st)).
Proof.
  intros Hty. unfold unpackLLElements, bind, assert, getType, checked.
  destruct llvmStruct; try discriminate; simpl in Hty; injection Hty as ->;
    cbn [isNull negb ret typeOf dyn_cast_LLVMStructType];
    by rewrite unpackLoop_run by (rewrite ?length_replicate; lia).
Qed.

Lemma extractFrom_wellTyped llvmStruct types :
  forall i, wellTyped (extractFrom llvmStruct i types) types.
Proof.
  induction types as [|t types IH]; intros i; constructor; [done|apply IH].
Qed.

Lemma eval_extractFrom env llvmStruct fields :
  eval env llvmStruct = DStruct fields ->
  forall types i,
    i + length types <= length fields ->
    eval env <$> extractFrom llvmStruct i types =
      take (length types) (drop i fields).
Proof.
  intros Hs. induction types as [|t types IH]; intros i Hlen; [done|].
  simpl in *. rewrite Hs.
  destruct (lookup_lt_is_Some_2 fields i) as [x Hx]; [lia|].
  rewrite Hx, (drop_S _ _ _ Hx). simpl. f_equal. apply IH. lia.
Qed.

Lemma hasType_struct d body :
  hasType d (LLVMStructType body) ->
  exists fields, d = DStruct fields /\ length fields = length body.
Proof.
  destruct d as [| |fields]; simpl; try done.
  intros H. exists fields. split; [done|].
  revert fields H. induction body as [|b body IH]; intros [|f fields];
    try done.
  intros [_ H]. simpl. f_equal. by apply IH.
Qed.

Lemma wellTyped_length vals types :
  wellTyped vals types -> length vals = length types.
Proof. apply Forall2_length. Qed.

(** Packing a well-typed sequence of as many values as the struct has
    fields: no diagnostic, and the result denotes the aggregate of the
    values. *)
Lemma packLLElements_wellTyped gept loc type body resultVals st :
  convertType gept type = Some (LLVMStructType body) ->
  wellTyped resultVals body ->
  let structType := LLVMStructType body in
  let packed := packedValue structType 0 resultVals (UndefOp structType) in
  packLLElements gept loc resultVals type st =
    (Ok packed,
     mkRewriter
       (created st ++ UndefOp structType ::
          insertChain structType 0 resultVals (UndefOp structType))
       (diagnostics st)) /\
  typeOf packed = Some structType /\
  forall env, eval env packed = DStruct (eval env <$> resultVals).
Proof.
  intros Hconv Hty structType packed.
  pose proof (wellTyped_length _ _ Hty) as Hlen. repeat split.
  - unfold packLLElements, bind, checked, when, create.
    rewrite Hconv. cbn [ret dyn_cast_LLVMStructType].
    rewrite bool_decide_true by done. cbn [negb ret].
    rewrite (packLoop_wellTyped _ _ _ _ 0 _ _ body [])
      by (by rewrite ?app_nil_r).
    cbn [created diagnostics]. by rewrite <- app_assoc.
  - by apply packedValue_typeOf.
  - intros env. unfold packed.
    erewrite eval_packedValue; [|reflexivity|rewrite length_map; lia].
    rewrite drop_ge by (rewrite length_map; lia).
    by rewrite app_nil_r.
Qed.

Lemma wellTyped_types vals types :
  wellTyped vals types -> typeOf <$> vals = Some <$> types.
Proof.
  induction 1 as [|v t vals types Hv _ IH]; [done|].
  rewrite !fmap_cons. by rewrite Hv, IH.
Qed.

(** A state reached from [st] by creating operations and emitting
    diagnostics only. *)
Definition extends (st st' : Rewriter) : Prop :=
  exists ops diags,
    st' = mkRewriter (created st ++ ops) (diagnostics st ++ diags).

Definition monotone {A} (m : M Rewriter A) : Prop :=
  forall st, extends st (snd (m st)).

Lemma extends_refl st : extends st st.
Proof. exists [], []. rewrite !app_nil_r. by destruct st. Qed.

Lemma extends_trans st1 st2 st3 :
  extends st1 st2 -> extends st2 st3 -> extends st1 st3.
Proof.
  intros (ops & diags & ->) (ops' & diags' & ->). simpl.
  exists (ops ++ ops'), (diags ++ diags'). by rewrite !app_assoc.
Qed.

Lemma monotone_ret {A} (a : A) : monotone (ret a).
Proof. intros st. apply extends_refl. Qed.

Lemma monotone_abort {A} : monotone (@abort Rewriter A).
Proof. intros st. apply extends_refl. Qed.

Lemma monotone_checked {A} (o : option A) : monotone (checked o).
Proof. destruct o; [apply monotone_ret|apply monotone_abort]. Qed.

Lemma monotone_emitError loc msg : monotone (emitError loc msg).
Proof. intros st. exists [], [mkDiag loc msg]. simpl. by rewrite app_nil_r. Qed.

Lemma monotone_create op : monotone (create op).
Proof. intros st. exists [op], []. simpl. by rewrite app_nil_r. Qed.

Lemma monotone_when b m : monotone m -> monotone (when b m).
Proof. destruct b; [done|intros _; apply monotone_ret]. Qed.

Lemma monotone_bind {A B} (m : M Rewriter A) (k : A -> M Rewriter B) :
  monotone m -> (forall a, monotone (k a)) -> monotone (bind m k).
Proof.
  intros Hm Hk st. unfold bind. specialize (Hm st).
  destruct (m st) as [[a| |msg] st']; simpl in *; [|done..].
  eapply extends_trans; [exact Hm|apply Hk].
Qed.

Create HintDb monotone.
#[local] Hint Resolve monotone_ret monotone_abort monotone_checked
  monotone_emitError monotone_create monotone_when : monotone.

Lemma monotone_packLoop loc structType elementTypes vals :
  forall index cur,
    monotone (packLoop loc structType elementTypes index vals cur).
Proof.
  induction vals as [|v vals IH]; intros index cur; simpl.
  - apply monotone_ret.
  - repeat (apply monotone_bind; [auto with monotone|intros ?]).
    + unfold getType. auto with monotone.
    + unfold at_index. auto with monotone.
    + unfold insert_val. auto with monotone.
    + apply IH.
Qed.

(** C1 (amended): the round trip of packing and unpacking is the identity on
    what the values denote, not on the values themselves.  For a type
    converting to an aggregate and a well-typed sequence of as many values
    as the aggregate has fields, packing and then unpacking returns, without
    a diagnostic, values of the same types that denote the same run-time
    values; and for a well-typed aggregate value, unpacking and then
    packing returns, without a diagnostic, a value of the same type that
    denotes the same aggregate. *)
Theorem C1_pack_unpack_round_trip gept loc type body st env :
  convertType gept type = Some (LLVMStructType body) ->
  (forall resultVals,
     wellTyped resultVals body ->
     exists packed st1 unpacked st2,
       packLLElements gept loc resultVals type st = (Ok packed, st1) /\
       unpackLLElements loc packed type st1 = (Ok unpacked, st2) /\
       diagnostics st2 = diagnostics st /\
       typeOf <$> unpacked = typeOf <$> resultVals /\
       eval env <$> unpacked = eval env <$> resultVals) /\
  (forall llvmStruct,
     typeOf llvmStruct = Some (LLVMStructType body) ->
     hasType (eval env llvmStruct) (LLVMStructType body) ->
     exists unpacked st1 repacked st2,
       unpackLLElements loc llvmStruct type st = (Ok unpacked, st1) /\
       packLLElements gept loc unpacked type st1 = (Ok repacked, st2) /\
       diagnostics st2 = diagnostics st /\
       typeOf repacked = typeOf llvmStruct /\
       eval env repacked = eval env llvmStruct).
Proof.
  intros Hconv. split.
  - intros resultVals Hty.
    destruct (packLLElements_wellTyped gept loc type body resultVals st
                Hconv Hty) as (Hpack & Htype & Heval).
    do 4 eexists. split; [exact Hpack|].
    split; [by apply unpackLLElements_struct|].
    split; [done|]. split.
    + rewrite (wellTyped_types _ _ (extractFrom_wellTyped _ _ 0)).
      by rewrite (wellTyped_types _ _ Hty).
    + rewrite (eval_extractFrom env _ _ (Heval env))
        by (rewrite length_fmap, (wellTyped_length _ _ Hty); lia).
      rewrite drop_0, take_ge; [done|].
      by rewrite length_fmap, (wellTyped_length _ _ Hty).
  - intros llvmStruct Htype Hdata.
    destruct (hasType_struct _ _ Hdata) as (fields & Hfields & Hlen).
    pose proof (extractFrom_wellTyped llvmStruct body 0) as Hty.
    destruct (packLLElements_wellTyped gept loc type body
                (extractFrom llvmStruct 0 body)
                (mkRewriter (created st ++ extractFrom llvmStruct 0 body)
                            (diagnostics st))
                Hconv Hty) as (Hpack & Htype' & Heval).
    do 4 eexists. split; [by apply unpackLLElements_struct|].
    split; [exact Hpack|]. split; [done|]. split; [congruence|].
    rewrite Heval, Hfields.
    rewrite (eval_extractFrom env _ _ Hfields) by (simpl; lia).
    by rewrite drop_0, take_ge by lia.
Qed.

(** A register-resident tensor: with four elements per thread it converts
    to a struct of four floats. *)
Definition blockedTensor : Ty :=
  TensorOf [128%Z] (FloatType F32)
    (Some (BlockedEncodingAttr [1] [32] [4] [0])).

Definition fourFloats : list Value :=
  [OuterValue 0 (FloatType F32); OuterValue 1 (FloatType F32);
   OuterValue 2 (FloatType F32); OuterValue 3 (FloatType F32)].

Definition emptyRewriter : Rewriter := mkRewriter [] [].

Definition fourFloatsStruct : Ty := LLVMStructType (replicate 4 (FloatType F32)).

Definition scalars (id : nat) : Data :=
  match id with
  | 9 => DStruct [DScalar 10; DScalar 20; DScalar 30; DScalar 40]
  | _ => DScalar (Z.of_nat id)
  end.

Lemma C1_pack_unpack_round_trip_witness :
  (exists packed st1 unpacked st2,
     packLLElements (fun _ => 4) "loc" fourFloats blockedTensor emptyRewriter =
       (Ok packed, st1) /\
     unpackLLElements "loc" packed blockedTensor st1 = (Ok unpacked, st2) /\
     diagnostics st2 = diagnostics emptyRewriter /\
     typeOf <$> unpacked = typeOf <$> fourFloats /\
     eval scalars <$> unpacked = eval scalars <$> fourFloats) /\
  (exists unpacked st1 repacked st2,
     unpackLLElements "loc" (OuterValue 9 fourFloatsStruct) blockedTensor
       emptyRewriter = (Ok unpacked, st1) /\
     packLLElements (fun _ => 4) "loc" unpacked blockedTensor st1 =
       (Ok repacked, st2) /\
     diagnostics st2 = diagnostics emptyRewriter /\
     typeOf repacked = typeOf (OuterValue 9 fourFloatsStruct) /\
     eval scalars repacked = eval scalars (OuterValue 9 fourFloatsStruct)).
Proof.
  destruct (C1_pack_unpack_round_trip (fun _ => 4) "loc" blockedTensor
              (replicate 4 (FloatType F32)) emptyRewriter scalars eq_refl)
    as [Hthere Hback].
  split.
  - apply Hthere. repeat constructor.
  - apply Hback; [reflexivity|]. simpl. tauto.
Defined.

(** C1, as the specification states it, fails: the round trip does not
    return the values it was given.  Unpacking the pack of four values
    returns the results of four new extractvalue operations, not the four
    values; unpacking and packing an aggregate returns the result of a new
    chain of insertvalue operations, not the aggregate. *)
Lemma C1_round_trip_returns_fresh_values :
  (exists packed st1 unpacked st2,
     packLLElements (fun _ => 4) "loc" fourFloats blockedTensor emptyRewriter =
       (Ok packed, st1) /\
     unpackLLElements "loc" packed blockedTensor st1 = (Ok unpacked, st2) /\
     unpacked = extractFrom packed 0 (replicate 4 (FloatType F32)) /\
     unpacked <> fourFloats) /\
  (exists unpacked st1 repacked st2,
     unpackLLElements "loc" (OuterValue 9 fourFloatsStruct) blockedTensor
       emptyRewriter = (Ok unpacked, st1) /\
     packLLElements (fun _ => 4) "loc" unpacked blockedTensor st1 =
       (Ok repacked, st2) /\
     repacked =
       packedValue fourFloatsStruct 0 unpacked (UndefOp fourFloatsStruct) /\
     repacked <> OuterValue 9 fourFloatsStruct).
Proof.
  split; do 4 eexists;
    (split; [vm_compute; reflexivity|]);
    (split; [vm_compute; reflexivity|]);
    (split; [reflexivity|discriminate]).
Qed.

(** With more values than fields the run stops at the first read past the
    field list, after the diagnostic, the undef and one insertion. *)
Example packLLElements_too_many_values :
  packLLElements (fun _ => 1) "loc"
    [OuterValue 0 (FloatType F32); OuterValue 1 (FloatType F32)]
    blockedTensor emptyRewriter =
  (Abort,
   mkRewriter
     [UndefOp (LLVMStructType [FloatType F32]);
      InsertValueOp (LLVMStructType [FloatType F32])
        (UndefOp (LLVMStructType [FloatType F32]))
        (OuterValue 0 (FloatType F32)) 0]
     [mkDiag "loc"
        [Text " size mismatch when packing elements for LLVM struct";
         Text " expected "; Count 1; Text " but got "; Count 2]]).
Proof. reflexivity. Qed.

(** The struct of a rank-1 Shared tensor of floats: a pointer and two
    integers. *)
Definition sharedFloats : Ty :=
  TensorOf [8%Z] (FloatType F32) (Some (SharedEncodingAttr 1 1 1 [0])).

Definition sharedFloatsStruct : Ty :=
  LLVMStructType
    [LLVMPointerType (FloatType F32) 3; IntegerType 32; IntegerType 32].

Definition basePointer : Value :=
  OuterValue 0 (LLVMPointerType (FloatType F32) 3).

Definition sizeMismatch (loc : Location) (expected actual : nat)
  : Diagnostic :=
  mkDiag loc
    [Text " size mismatch when packing elements for LLVM struct";
     Text " expected "; Count expected; Text " but got "; Count actual].

(** C4, as the specification states it, fails: packing one value into a
    struct of three fields emits the size-mismatch diagnostic and then
    builds the aggregate all the same; it creates the undef struct and an
    insertion, and returns the partially filled struct. *)
Lemma C4_short_sequence_is_still_packed :
  packLLElements (fun _ => 4) "loc" [basePointer] sharedFloats emptyRewriter =
    (Ok (InsertValueOp sharedFloatsStruct (UndefOp sharedFloatsStruct)
           basePointer 0),
     mkRewriter
       [UndefOp sharedFloatsStruct;
        InsertValueOp sharedFloatsStruct (UndefOp sharedFloatsStruct)
          basePointer 0]
       [sizeMismatch "loc" 3 1]) /\
  created
    (snd (packLLElements (fun _ => 4) "loc" [basePointer] sharedFloats
            emptyRewriter)) <> created emptyRewriter.
Proof. split; [reflexivity|discriminate]. Qed.

(** C4 (amended): for every value sequence and aggregate-converting type
    with a length different from the field count, packing emits the
    size-mismatch diagnostic naming the expected and the actual count, and
    then goes on to build the aggregate instead of stopping: the undef
    aggregate is created in every case, and when the sequence is a
    well-typed prefix of the fields every value is inserted at its index and
    the partially filled aggregate is returned, with no other diagnostic. *)
Theorem C4_size_mismatch_is_diagnosed_and_packing_goes_on
  gept loc type body resultVals st :
  convertType gept type = Some (LLVMStructType body) ->
  length resultVals <> length body ->
  let structType := LLVMStructType body in
  let mismatch := sizeMismatch loc (length body) (length resultVals) in
  (exists outcome moreOps moreDiags,
     packLLElements gept loc resultVals type st =
       (outcome,
        mkRewriter (created st ++ UndefOp structType :: moreOps)
                   (diagnostics st ++ mismatch :: moreDiags))) /\
  (wellTyped resultVals (take (length resultVals) body) ->
   packLLElements gept loc resultVals type st =
     (Ok (packedValue structType 0 resultVals (UndefOp structType)),
      mkRewriter
        (created st ++ UndefOp structType ::
           insertChain structType 0 resultVals (UndefOp structType))
        (diagnostics st ++ [mismatch]))).
Proof.
  intros Hconv Hlen structType mismatch.
  assert (packLLElements gept loc resultVals type st =
          packLoop loc structType body 0 resultVals (UndefOp structType)
            (mkRewriter (created st ++ [UndefOp structType])
                        (diagnostics st ++ [mismatch]))) as ->.
  { unfold packLLElements, bind, checked, when, create, emitError.
    rewrite Hconv. cbn [ret dyn_cast_LLVMStructType].
    rewrite bool_decide_false by congruence. done. }
  split.
  - destruct (monotone_packLoop loc structType body resultVals 0
                (UndefOp structType)
                (mkRewriter (created st ++ [UndefOp structType])
                            (diagnostics st ++ [mismatch])))
      as (ops & diags & Hst).
    destruct (packLoop _ _ _ _ _ _ _) as [outcome st'] eqn:Hloop.
    simpl in Hst. subst st'. exists outcome, ops, diags.
    by rewrite <- !app_assoc.
  - intros Hty.
    rewrite (packLoop_wellTyped _ _ _ _ 0 _ _
               (take (length resultVals) body)
               (drop (length resultVals) body))
      by (by rewrite ?drop_0, ?take_drop).
    cbn [created diagnostics]. by rewrite <- app_assoc.
Qed.

Lemma C4_size_mismatch_is_diagnosed_and_packing_goes_on_witness :
  packLLElements (fun _ => 4) "loc" [basePointer] sharedFloats emptyRewriter =
    (Ok (packedValue sharedFloatsStruct 0 [basePointer]
           (UndefOp sharedFloatsStruct)),
     mkRewriter
       (UndefOp sharedFloatsStruct ::
          insertChain sharedFloatsStruct 0 [basePointer]
            (UndefOp sharedFloatsStruct))
       [sizeMismatch "loc" 3 1]).
Proof.
  refine (proj2 (C4_size_mismatch_is_diagnosed_and_packing_goes_on
            (fun _ => 4) "loc" sharedFloats
            [LLVMPointerType (FloatType F32) 3; IntegerType 32; IntegerType 32]
            [basePointer] emptyRewriter eq_refl _) _).
  - simpl. lia.
  - repeat constructor.
Defined.

End PackingProps.

(** ** Failed layout inference in result-type inference *)

Module InferenceProps.
Import TritonOps.

(** An interface that cannot infer any layout. *)
Definition noInference : DialectInferLayoutInterface := {|
  inferTransOpEncoding := fun _ => (failure, None);
  inferReduceOpEncoding := fun _ _ => (failure, None);
  inferExpandDimsOpEncoding := fun _ _ _ => (failure, None)
|}.

Definition blockedMatrix : Value :=
  OuterValue 0 (TensorOf [16%Z; 32%Z] (FloatType F32)
               (Some (BlockedEncodingAttr [1; 1] [1; 32] [4; 1] [1; 0]))).

Definition axisAttrs (axis : Z) : gmap string AttrValue :=
  <["axis" := IntegerAttr axis]> (<["redOp" := RedOpAttr ARGMAX]> ∅).

Definition emptyInfer : InferState := mkInfer [] [].

Section Failure.

Context {inferLayoutInterface : DialectInferLayoutInterface}.

Variable location : option Location.
Variable operands : list Value.
Variable attributes : gmap string AttrValue.
Variable arg : Value.
Variable argTy : RankedTensorType.
Variable argEncoding : Attribute.

Hypothesis operand0 : operands !! 0 = Some arg.
Hypothesis operand0_type : typeOf arg = Some (asType argTy).
Hypothesis operand0_encoding : getEncoding argTy = Some argEncoding.

Lemma operandTensorType_operand0 st :
  operandTensorType operands 0 st = (Ok argTy, st).
Proof.
  unfold operandTensorType, bind, at_index, getType, checked.
  rewrite operand0. cbn [ret]. rewrite operand0_type. cbn [ret].
  by destruct argTy.
Qed.

(** The expand-dims operation reports a failed inference at the operation's
    location, when it has one, and returns failure. *)
Lemma ExpandDimsOp_failed_inference axis retEncoding st :
  attributes !! "axis" = Some (IntegerAttr axis) ->
  (0 ≤ axis ≤ Z.of_nat (length (getShape argTy)))%Z ->
  inferExpandDimsOpEncoding argEncoding axis location =
    (failure, retEncoding) ->
  ExpandDimsOp_inferReturnTypes location operands attributes st =
    (Ok failure,
     match location with
     | Some l =>
         mkInfer (inferredReturnTypes st)
           (emitted st ++
              [mkDiag l [Text "failed to infer layout for ExpandDimsOp"]])
     | None => st
     end).
Proof.
  intros Haxis Hrange Hfail. unfold ExpandDimsOp_inferReturnTypes, bind.
  rewrite operandTensorType_operand0, Haxis. cbn [getInt ret].
  rewrite bool_decide_true by done. cbn [assert ret].
  rewrite operand0_encoding, Hfail. cbn [failed].
  unfold emitOptionalError. by destruct location.
Qed.

(** C9: the code at a failed layout inference.  The transpose and the
    reduce operation do not report at the operation's location and return
    failure: they call [llvm::report_fatal_error], which terminates the
    process, with no diagnostic emitted and nothing inferred. *)
Theorem C9_failed_inference_is_fatal_for_trans_and_reduce st :
  (forall retEncoding,
     inferTransOpEncoding argEncoding = (failure, retEncoding) ->
     TransOp_inferReturnTypes location operands attributes st =
       (Fatal "failed to infer layout for ReduceOp", st)) /\
  (forall redOp axis retEncoding,
     attributes !! "redOp" = Some (RedOpAttr redOp) ->
     attributes !! "axis" = Some (IntegerAttr axis) ->
     (0 ≤ axis < Z.of_nat (length (getShape argTy)))%Z ->
     delete (Z.to_nat axis) (getShape argTy) <> [] ->
     inferReduceOpEncoding argEncoding axis = (failure, retEncoding) ->
     ReduceOp_inferReturnTypes location operands attributes st =
       (Fatal "failed to infer layout for ReduceOp", st)).
Proof.
  split.
  - intros retEncoding Hfail. unfold TransOp_inferReturnTypes, bind.
    rewrite operandTensorType_operand0, operand0_encoding, Hfail. done.
  - intros redOp axis retEncoding HredOp Haxis Hrange Hshape Hfail.
    unfold ReduceOp_inferReturnTypes, bind.
    rewrite operandTensorType_operand0, HredOp. cbn [getRedOp ret].
    rewrite Haxis. cbn [getInt ret].
    rewrite bool_decide_true by done. cbn [assert ret].
    destruct (delete (Z.to_nat axis) (getShape argTy)) as [|d shape];
      [done|].
    rewrite operand0_encoding, Hfail. done.
Qed.

End Failure.

Lemma C9_failed_inference_is_fatal_for_trans_and_reduce_witness :
  @TransOp_inferReturnTypes noInference (Some "kernel.py:12")
    [blockedMatrix] (axisAttrs 1) emptyInfer =
    (Fatal "failed to infer layout for ReduceOp", emptyInfer) /\
  @ReduceOp_inferReturnTypes noInference (Some "kernel.py:12")
    [blockedMatrix] (axisAttrs 1) emptyInfer =
    (Fatal "failed to infer layout for ReduceOp", emptyInfer).
Proof.
  pose proof (@C9_failed_inference_is_fatal_for_trans_and_reduce noInference
    (Some "kernel.py:12") [blockedMatrix] (axisAttrs 1) blockedMatrix
    (mkTensor [16%Z; 32%Z] (FloatType F32)
       (Some (BlockedEncodingAttr [1; 1] [1; 32] [4; 1] [1; 0])))
    (BlockedEncodingAttr [1; 1] [1; 32] [4; 1] [1; 0])
    eq_refl eq_refl eq_refl emptyInfer) as [Htrans Hreduce].
  split.
  - apply (Htrans None). reflexivity.
  - apply (Hreduce ARGMAX 1%Z None); try reflexivity.
    + simpl. lia.
    + discriminate.
Defined.

(** The sibling path: on the same input the expand-dims operation emits one
    diagnostic at the location and returns failure. *)
Example ExpandDimsOp_failed_inference_example :
  @ExpandDimsOp_inferReturnTypes noInference (Some "kernel.py:12")
    [blockedMatrix] (axisAttrs 1) emptyInfer =
    (Ok failure,
     mkInfer []
       [mkDiag "kernel.py:12"
          [Text "failed to infer layout for ExpandDimsOp"]]).
Proof. reflexivity. Qed.

End InferenceProps.

(** ** Default layout assignment and the legality of dot operations *)

Module ConversionProps.
Import TritonGPUConversion.

Lemma blockedOnFirstDim_contract : BlockedBuilderContract blockedOnFirstDim.
Proof.
  intros shape sizePerThread order numWarps. do 2 eexists.
  split; [reflexivity|]. simpl.
  induction (pred (length shape)) as [|n IH]; simpl; lia.
Qed.

Definition product (l : list nat) : nat := foldr Nat.mul 1 l.

(** C5: the converter configured with a warp count N maps every ranked
    tensor type without an encoding to the tensor type of the same shape
    and element type whose encoding is a Blocked layout with size-per-thread
    1 in every dimension, the identity dimension order and a warps-per-CTA
    product of N; a tensor type that has an encoding is returned
    unchanged. *)
Theorem C5_default_blocked_layout BlockedEncodingAttr_get numWarps :
  BlockedBuilderContract BlockedEncodingAttr_get ->
  (forall tensorType,
     getEncoding tensorType = None ->
     exists threadsPerWarp warpsPerCTA,
       convertRankedTensorType BlockedEncodingAttr_get numWarps tensorType =
         mkTensor (getShape tensorType) (getElementType tensorType)
           (Some (BlockedEncodingAttr
                    (replicate (getRank tensorType) 1) threadsPerWarp
                    warpsPerCTA (seq 0 (getRank tensorType)))) /\
       product warpsPerCTA = numWarps /\
       convertType BlockedEncodingAttr_get numWarps (asType tensorType) =
         asType (convertRankedTensorType BlockedEncodingAttr_get numWarps
                   tensorType)) /\
  (forall tensorType,
     is_Some (getEncoding tensorType) ->
     convertRankedTensorType BlockedEncodingAttr_get numWarps tensorType =
       tensorType /\
     convertType BlockedEncodingAttr_get numWarps (asType tensorType) =
       asType tensorType).
Proof.
  intros Hget. split.
  - intros [shape elt enc] Henc. simpl in Henc. subst enc.
    unfold convertType, convertRankedTensorType.
    cbn [asType dyn_cast_RankedTensorType getEncoding getShape
         getElementType getRank].
    destruct (Hget shape (replicate (length shape) 1) (iota (length shape))
                numWarps) as (threadsPerWarp & warpsPerCTA & Heq & Hwarps).
    exists threadsPerWarp, warpsPerCTA. rewrite Heq. done.
  - intros [shape elt enc] [e He]. simpl in He. subst enc. done.
Qed.

Lemma C5_default_blocked_layout_witness :
  exists threadsPerWarp warpsPerCTA,
    convertRankedTensorType blockedOnFirstDim 4
      (mkTensor [64%Z; 32%Z] (FloatType F16) None) =
      mkTensor [64%Z; 32%Z] (FloatType F16)
        (Some (BlockedEncodingAttr [1; 1] threadsPerWarp warpsPerCTA [0; 1])) /\
    product warpsPerCTA = 4 /\
    convertType blockedOnFirstDim 4
      (TensorOf [64%Z; 32%Z] (FloatType F16) None) =
      asType (convertRankedTensorType blockedOnFirstDim 4
                (mkTensor [64%Z; 32%Z] (FloatType F16) None)).
Proof.
  apply (proj1 (C5_default_blocked_layout blockedOnFirstDim 4
                  blockedOnFirstDim_contract)
               (mkTensor [64%Z; 32%Z] (FloatType F16) None)).
  reflexivity.
Defined.

(** A tensor type carries a DotOperand layout. *)
Definition hasDotOperandLayout (t : RankedTensorType) : Prop :=
  exists opIdx parent,
    getEncoding t = Some (DotOperandEncodingAttr opIdx parent).

(** The test of the dot callback, on the two operand types. *)
Definition bothDotOperands (a b : RankedTensorType) : bool :=
  match getEncoding a, getEncoding b with
  | Some ea, Some eb =>
      isa_DotOperandEncodingAttr ea && isa_DotOperandEncodingAttr eb
  | _, _ => false
  end.

Lemma bothDotOperands_spec a b :
  bothDotOperands a b = true <->
  hasDotOperandLayout a /\ hasDotOperandLayout b.
Proof.
  unfold bothDotOperands, hasDotOperandLayout. split.
  - destruct (getEncoding a) as [[]|], (getEncoding b) as [[]|];
      try discriminate.
    intros _. split; by do 2 eexists.
  - intros [(ia & pa & ->) (ib & pb & ->)]. done.
Qed.

Lemma dotOp_info BlockedEncodingAttr_get numWarps :
  getOpInfo (TritonGPUConversionTarget BlockedEncodingAttr_get numWarps)
    triton_DotOp =
  Some (Dynamic dotOpLegality).
Proof. reflexivity. Qed.

Lemma classify_dotOp BlockedEncodingAttr_get numWarps dotOp a b others :
  getName dotOp = triton_DotOp ->
  getOperandTypes dotOp = asType a :: asType b :: others ->
  classify (TritonGPUConversionTarget BlockedEncodingAttr_get numWarps) dotOp =
    if bothDotOperands a b then IsLegal else IsIllegal.
Proof.
  intros Hname Hops. unfold classify. rewrite Hname, dotOp_info.
  unfold dotOpLegality, operandEncoding, bothDotOperands. rewrite Hops.
  destruct a as [sa ea [enca|]], b as [sb eb [encb|]]; simpl; try done.
  by destruct (isa_DotOperandEncodingAttr enca),
              (isa_DotOperandEncodingAttr encb).
Qed.

(** C6: the target classifies a dot operation as legal exactly when both
    of its matrix operands carry a DotOperand layout, and as illegal
    otherwise: when one of them carries another layout or none. *)
Theorem C6_dot_legal_iff_dot_operands BlockedEncodingAttr_get numWarps
  dotOp a b others :
  getName dotOp = triton_DotOp ->
  getOperandTypes dotOp = asType a :: asType b :: others ->
  let verdict :=
    classify (TritonGPUConversionTarget BlockedEncodingAttr_get numWarps)
      dotOp in
  (verdict = IsLegal <-> hasDotOperandLayout a /\ hasDotOperandLayout b) /\
  (verdict = IsIllegal <->
     ~ (hasDotOperandLayout a /\ hasDotOperandLayout b)).
Proof.
  intros Hname Hops verdict. unfold verdict.
  rewrite (classify_dotOp _ _ _ a b others Hname Hops).
  rewrite <- bothDotOperands_spec.
  destruct (bothDotOperands a b); split; split; try done.
Qed.

Definition dotOperandMatrix (opIdx : nat) : RankedTensorType :=
  mkTensor [16%Z; 16%Z] (FloatType F16)
    (Some (DotOperandEncodingAttr opIdx (MmaEncodingAttr AmpereClass [2; 2]))).

Definition blockedOperandMatrix : RankedTensorType :=
  mkTensor [16%Z; 16%Z] (FloatType F16)
    (Some (BlockedEncodingAttr [1; 1] [1; 32] [4; 1] [1; 0])).

Definition accumulator : Ty :=
  TensorOf [16%Z; 16%Z] (FloatType F32)
    (Some (MmaEncodingAttr AmpereClass [2; 2])).

Definition dotOf (a b : RankedTensorType) : Operation :=
  mkOp triton_DotOp [asType a; asType b; accumulator] [accumulator] [].

Lemma C6_dot_legal_iff_dot_operands_witness :
  classify (TritonGPUConversionTarget blockedOnFirstDim 4)
    (dotOf (dotOperandMatrix 0) (dotOperandMatrix 1)) = IsLegal /\
  classify (TritonGPUConversionTarget blockedOnFirstDim 4)
    (dotOf blockedOperandMatrix (dotOperandMatrix 1)) = IsIllegal.
Proof.
  split.
  - apply (C6_dot_legal_iff_dot_operands blockedOnFirstDim 4
             (dotOf (dotOperandMatrix 0) (dotOperandMatrix 1))
             (dotOperandMatrix 0) (dotOperandMatrix 1) [accumulator]
             eq_refl eq_refl).
    split; by do 2 eexists.
  - apply (C6_dot_legal_iff_dot_operands blockedOnFirstDim 4
             (dotOf blockedOperandMatrix (dotOperandMatrix 1))
             blockedOperandMatrix (dotOperandMatrix 1) [accumulator]
             eq_refl eq_refl).
    intros [(opIdx & parent & H) _]. discriminate.
Defined.

End ConversionProps.

(** * Further properties of the code *)

(** ** The type converter *)

Module ConverterExtras.
Import TritonGPUToLLVM TypeConverterProps.

(** Induction on types that reaches the fields of a struct. *)
Lemma Ty_nested_ind (P : Ty -> Prop) :
  (forall w, P (IntegerType w)) ->
  (forall k, P (FloatType k)) ->
  (forall p s, P p -> P (PointerType p s)) ->
  (forall p s, P p -> P (LLVMPointerType p s)) ->
  (forall n e, P e -> P (VectorType n e)) ->
  (forall body, Forall P body -> P (LLVMStructType body)) ->
  (forall shape e enc, P e -> P (TensorOf shape e enc)) ->
  forall t, P t.
Proof.
  intros Hint Hfloat Hptr Hllvm Hvec Hstruct Htensor.
  fix IH 1. intros [w|k|p s|p s|n e|body|shape e enc].
  - apply Hint.
  - apply Hfloat.
  - apply Hptr, IH.
  - apply Hllvm, IH.
  - apply Hvec, IH.
  - apply Hstruct. induction body as [|x xs IHxs]; constructor;
      [apply IH|exact IHxs].
  - apply Htensor, IH.
Qed.

Lemma Forall2_images {A B} (f : A -> option B) (P : B -> Prop) l k :
  Forall2 (fun x y => f x = Some y) l k ->
  Forall (fun x => forall y, f x = Some y -> P y) l ->
  Forall P k.
Proof.
  induction 1 as [|x y xs ys Hxy _ IH]; [constructor|].
  intros Hall. inversion Hall as [|? ? Hx Hxs]; subst.
  constructor; [by apply Hx|by apply IH].
Qed.

Section FixedPoints.

Variable gept : Ty -> nat.

(** A type that converts to itself. *)
Definition fixedPoint (t : Ty) : Prop := convertType gept t = Some t.

Lemma convertType_vector n e :
  convertType gept (VectorType n e) =
    if isCompatibleType (VectorType n e) then Some (VectorType n e)
    else e' ← convertType gept e; Some (VectorType n e').
Proof. reflexivity. Qed.

Lemma convertType_struct body :
  convertType gept (LLVMStructType body) =
    if isCompatibleType (LLVMStructType body) then Some (LLVMStructType body)
    else body' ← mapM (convertType gept) body; Some (LLVMStructType body').
Proof. reflexivity. Qed.

Lemma convertType_llvm_pointer p s :
  convertType gept (LLVMPointerType p s) =
    p' ← convertType gept p; Some (LLVMPointerType p' s).
Proof. reflexivity. Qed.

Lemma fixedPoint_vector n e : fixedPoint e -> fixedPoint (VectorType n e).
Proof.
  unfold fixedPoint. intros He. rewrite convertType_vector, He.
  by destruct (isCompatibleType _).
Qed.

Lemma fixedPoint_llvm_pointer p s :
  fixedPoint p -> fixedPoint (LLVMPointerType p s).
Proof.
  unfold fixedPoint. intros Hp. by rewrite convertType_llvm_pointer, Hp.
Qed.

Lemma fixedPoint_struct body :
  Forall fixedPoint body -> fixedPoint (LLVMStructType body).
Proof.
  unfold fixedPoint. intros Hbody. rewrite convertType_struct.
  destruct (isCompatibleType _); [done|].
  assert (mapM (convertType gept) body = Some body) as ->; [|done].
  apply mapM_Some. by apply Forall_Forall2_diag.
Qed.

Lemma elemTyMap_lookup_Some elemTy w t :
  elemTyMap elemTy !! w = Some t -> exists k, t = vec_ty elemTy k.
Proof.
  unfold elemTyMap. rewrite !lookup_insert, lookup_empty.
  repeat case_decide; intros [= <-]; by eexists.
Qed.

(** The element type a tensor's struct is made of is a fixed point as soon
    as the converted element type of the tensor is. *)
Lemma fixedPoint_element type eltType :
  (forall c, convertType gept (getElementType type) = Some c -> fixedPoint c) ->
  getElementTypeForStruct_handle (convertType gept) type =
    Some (Some eltType) ->
  fixedPoint eltType.
Proof.
  intros Hc. unfold getElementTypeForStruct_handle.
  destruct (convertType gept (getElementType type)) as [c|]; [|done].
  specialize (Hc c eq_refl). simpl.
  destruct (getEncoding type) as [[| | | |opIdx []]|]; simpl;
    try (by intros [= <-]).
  destruct generation; simpl.
  - intros [= <-]. by apply fixedPoint_vector.
  - destruct (getIntOrFloatBitWidth c) as [w|]; [|done]. simpl.
    destruct (isa_IntegerType c && bool_decide (w < 32)).
    + by intros [= <-].
    + intros [= Hlookup]. apply elemTyMap_lookup_Some in Hlookup as [k ->].
      by apply fixedPoint_vector.
Qed.

Lemma fixedPoint_tensor_struct type t' :
  (forall c, convertType gept (getElementType type) = Some c -> fixedPoint c) ->
  convertTritonTensorType gept (convertType gept) type = Some t' ->
  fixedPoint t'.
Proof.
  intros Hc. unfold convertTritonTensorType.
  destruct (getElementTypeForStruct_handle (convertType gept) type)
    as [[eltType|]|] eqn:Helt; simpl; [| |done].
  - pose proof (fixedPoint_element _ _ Hc Helt) as Hfixed.
    destruct (getEncoding type) as [[]|]; simpl; intros [= <-];
      try (by apply fixedPoint_struct, Forall_replicate).
    rewrite push_back_i32_replicate. apply fixedPoint_struct.
    constructor; [by apply fixedPoint_llvm_pointer|].
    by apply Forall_replicate.
  - destruct (getEncoding type) as [[]|]; simpl; try done;
      destruct (gept (asType type)); by intros [= <-].
Qed.

End FixedPoints.

(** X1: A converted type converts to itself: the lowering reaches a fixed
    point in one step, for every type and every elements-per-thread
    function.  The conversions of [TypeConverter.cpp] are taken with the
    modelled conversions of the base class ([convertBaseType]), which decide
    how an LLVM struct, an LLVM pointer or a vector is converted again. *)
Theorem convertType_idempotent gept t t' :
  convertType gept t = Some t' -> convertType gept t' = Some t'.
Proof.
  change (convertType gept t = Some t' -> fixedPoint gept t').
  revert t'. induction t as [w|k|p s IHp|p s IHp|n e IHe|body IHbody
                             |shape e enc IHe] using Ty_nested_ind;
    intros t'.
  - by intros [= <-].
  - destruct k; by intros [= <-].
  - simpl. unfold convertTritonPointerType.
    destruct (convertType gept p) as [p'|] eqn:Hp; [|done].
    intros [= <-]. by apply fixedPoint_llvm_pointer, IHp.
  - rewrite convertType_llvm_pointer.
    destruct (convertType gept p) as [p'|] eqn:Hp; [|done].
    intros [= <-]. by apply fixedPoint_llvm_pointer, IHp.
  - rewrite convertType_vector.
    destruct (isCompatibleType (VectorType n e)) eqn:Hcompat.
    + intros [= <-]. unfold fixedPoint.
      by rewrite convertType_vector, Hcompat.
    + destruct (convertType gept e) as [e'|] eqn:He; [|done].
      intros [= <-]. by apply fixedPoint_vector, IHe.
  - rewrite convertType_struct.
    destruct (isCompatibleType (LLVMStructType body)) eqn:Hcompat.
    + intros [= <-]. unfold fixedPoint.
      by rewrite convertType_struct, Hcompat.
    + destruct (mapM (convertType gept) body) as [body'|] eqn:Hbody; [|done].
      intros [= <-]. apply fixedPoint_struct.
      apply mapM_Some in Hbody. by eapply Forall2_images.
  - simpl. apply fixedPoint_tensor_struct. exact IHe.
Qed.

Lemma convertType_idempotent_witness :
  convertType fourPerThread
    (LLVMStructType [LLVMPointerType (IntegerType 16) 3;
                     IntegerType 32; IntegerType 32]) =
  Some (LLVMStructType [LLVMPointerType (IntegerType 16) 3;
                        IntegerType 32; IntegerType 32]).
Proof.
  apply (convertType_idempotent fourPerThread
           (TensorOf [4%Z] (FloatType BF16)
              (Some (SharedEncodingAttr 1 1 1 [0])))).
  reflexivity.
Defined.

(** The layouts on which element-type resolution looks at the hardware
    generation: a DotOperand whose parent is an MMA layout. *)
Definition isDotOperandOverMma (layout : Attribute) : bool :=
  match layout with
  | DotOperandEncodingAttr _ (MmaEncodingAttr _ _) => true
  | _ => false
  end.

(** X2: On every other layout (Blocked, Shared, Slice, MMA itself, a DotOperand
    over a parent that is not an MMA layout) element-type resolution is the
    plain conversion of the element type; on a tensor without a layout it
    gives no type. *)
Theorem getElementTypeForStruct_plain gept type :
  (forall layout,
     getEncoding type = Some layout ->
     isDotOperandOverMma layout = false ->
     getElementTypeForStruct (convertType gept) type =
       convertType gept (getElementType type)) /\
  (getEncoding type = None ->
   getElementTypeForStruct (convertType gept) type = None /\
   convertType gept (asType type) = None).
Proof.
  split.
  - intros layout Henc Hplain. unfold getElementTypeForStruct. rewrite Henc.
    destruct (convertType gept (getElementType type)); [|done]. simpl.
    destruct layout as [| | | |opIdx []]; done.
  - intros Henc.
    assert (getElementTypeForStruct (convertType gept) type = None) as Hnone.
    { unfold getElementTypeForStruct. rewrite Henc.
      by destruct (convertType gept (getElementType type)). }
    split; [done|]. destruct type as [shape elt enc]. simpl in *.
    unfold convertTritonTensorType, getElementTypeForStruct_handle.
    cbn [getEncoding getElementType]. rewrite Henc.
    by destruct (convertType gept elt).
Qed.

Lemma getElementTypeForStruct_plain_witness :
  getElementTypeForStruct (convertType fourPerThread)
    (mkTensor [32%Z] (FloatType BF16)
       (Some (DotOperandEncodingAttr 1
                (BlockedEncodingAttr [1] [32] [4] [0])))) =
  Some (IntegerType 16) /\
  convertType fourPerThread (TensorOf [32%Z] (FloatType F32) None) = None.
Proof.
  split.
  - apply (proj1 (getElementTypeForStruct_plain fourPerThread
      (mkTensor [32%Z] (FloatType BF16)
         (Some (DotOperandEncodingAttr 1
                  (BlockedEncodingAttr [1] [32] [4] [0]))))) _ eq_refl eq_refl).
  - apply (proj2 (getElementTypeForStruct_plain fourPerThread
      (mkTensor [32%Z] (FloatType F32) None)) eq_refl).
Defined.

(** X3: On an Ampere-class operand the packing table has no entry for an
    integer wider than 32 bits or for the 64-bit float: element-type
    resolution returns the null type.  The tensor then converts to the
    empty struct when elements-per-thread is 0, and to no type otherwise (the
    struct would have null fields).  For a pointer element type resolution
    stops earlier, at a failed assertion (that of [getIntOrFloatBitWidth]
    when the pointee converts), and the tensor does not convert, whatever
    elements-per-thread is. *)
Theorem ampere_unsupported_elements gept shape opIdx warps :
  let operand elt :=
    mkTensor shape elt
      (Some (DotOperandEncodingAttr opIdx
               (MmaEncodingAttr AmpereClass warps))) in
  let ofNullFields elt :=
    match gept (asType (operand elt)) with
    | 0 => Some (LLVMStructType [])
    | S _ => None
    end in
  (forall w, 32 < w ->
     getElementTypeForStruct_handle (convertType gept)
       (operand (IntegerType w)) = Some None /\
     convertType gept (asType (operand (IntegerType w))) =
       ofNullFields (IntegerType w)) /\
  (getElementTypeForStruct_handle (convertType gept)
     (operand (FloatType F64)) = Some None /\
   convertType gept (asType (operand (FloatType F64))) =
     ofNullFields (FloatType F64)) /\
  (forall pointee addressSpace,
     getElementTypeForStruct_handle (convertType gept)
       (operand (PointerType pointee addressSpace)) = None /\
     convertType gept (asType (operand (PointerType pointee addressSpace))) =
       None).
Proof.
  intros operand ofNullFields.
  assert (forall elt handle,
            getElementTypeForStruct_handle (convertType gept) (operand elt) =
              handle ->
            convertType gept (asType (operand elt)) =
              match handle with
              | Some (Some eltType) =>
                  Some (LLVMStructType
                          (replicate (gept (asType (operand elt))) eltType))
              | Some None => ofNullFields elt
              | None => None
              end) as Htensor.
  { intros elt handle Hhandle.
    change (convertType gept (asType (operand elt)))
      with (convertTritonTensorType gept (convertType gept) (operand elt)).
    unfold convertTritonTensorType. rewrite Hhandle.
    by destruct handle as [[?|]|]. }
  assert (forall w, 32 < w ->
            getElementTypeForStruct_handle (convertType gept)
              (operand (IntegerType w)) = Some None) as Hint.
  { intros w Hw. unfold getElementTypeForStruct_handle. simpl.
    rewrite bool_decide_false by lia. simpl.
    by rewrite elemTyMap_lookup_other by lia. }
  assert (getElementTypeForStruct_handle (convertType gept)
            (operand (FloatType F64)) = Some None) as Hfloat.
  { unfold getElementTypeForStruct_handle. simpl.
    by rewrite elemTyMap_lookup_other by lia. }
  assert (forall pointee addressSpace,
            getElementTypeForStruct_handle (convertType gept)
              (operand (PointerType pointee addressSpace)) = None) as Hptr.
  { intros pointee addressSpace. unfold getElementTypeForStruct_handle.
    simpl. unfold convertTritonPointerType.
    by destruct (convertType gept pointee). }
  split; [|split].
  - intros w Hw. split; [by apply Hint|].
    by rewrite (Htensor _ _ (Hint w Hw)).
  - split; [done|]. by rewrite (Htensor _ _ Hfloat).
  - intros pointee addressSpace. split; [done|].
    by rewrite (Htensor _ _ (Hptr pointee addressSpace)).
Qed.

Lemma ampere_unsupported_elements_witness :
  convertType (fun _ => 0)
    (asType (dotOperandOf AmpereClass (IntegerType 64))) =
    Some (LLVMStructType []) /\
  convertType fourPerThread
    (asType (dotOperandOf AmpereClass (IntegerType 64))) = None.
Proof.
  split.
  - apply (proj2 (proj1 (ampere_unsupported_elements (fun _ => 0)
                           [16%Z; 16%Z] 0 [2; 2]) 64 ltac:(lia))).
  - apply (proj2 (proj1 (ampere_unsupported_elements fourPerThread
                           [16%Z; 16%Z] 0 [2; 2]) 64 ltac:(lia))).
Defined.

End ConverterExtras.

(** ** Packing and unpacking, beyond the well-typed case *)

Module PackingExtras.
Import TritonGPUToLLVM Semantics PackingProps.

Lemma extends_diagnostics st st' :
  extends st st' -> length (diagnostics st) <= length (diagnostics st').
Proof. intros (ops & diags & ->). simpl. rewrite length_app. lia. Qed.

(** Packing into an aggregate, as the run of the loop from the state left
    by the size check and the creation of the undef aggregate. *)
Lemma packLLElements_struct_run gept loc resultVals type body st :
  convertType gept type = Some (LLVMStructType body) ->
  packLLElements gept loc resultVals type st =
    packLoop loc (LLVMStructType body) body 0 resultVals
      (UndefOp (LLVMStructType body))
      (mkRewriter
         (created st ++ [UndefOp (LLVMStructType body)])
         (diagnostics st ++
            if bool_decide (length body = length resultVals) then []
            else [sizeMismatch loc (length body) (length resultVals)])).
Proof.
  intros Hconv. unfold packLLElements, bind, checked, when, create, emitError.
  rewrite Hconv. cbn [ret dyn_cast_LLVMStructType].
  destruct (bool_decide (length body = length resultVals)); cbn [negb ret];
    by rewrite ?app_nil_r.
Qed.

(** One round of the loop on a value that is not null, at an index inside
    the field list. *)
Lemma packLoop_step loc structType elementTypes index v vals cur st vt et :
  typeOf v = Some vt ->
  elementTypes !! index = Some et ->
  packLoop loc structType elementTypes index (v :: vals) cur st =
    packLoop loc structType elementTypes (S index) vals
      (InsertValueOp structType cur v index)
      (mkRewriter
         (created st ++ [InsertValueOp structType cur v index])
         (diagnostics st ++
            if Ty_eqb vt et then []
            else [mkDiag loc
                    [Text "invalid element type in packLLEElements. Expected ";
                     TypeArg et; Text " but got "; TypeArg vt]])).
Proof.
  intros Hv Hidx. cbn [packLoop].
  assert (isNull v = false) as -> by (by destruct v).
  unfold bind, when, getType, at_index, checked, insert_val, create,
    emitError.
  cbn [ret]. rewrite Hv, Hidx. cbn [ret].
  destruct (Ty_eqb vt et); cbn [negb ret created diagnostics];
    by rewrite ?app_nil_r.
Qed.

Lemma packLoop_null loc structType elementTypes index vals cur st :
  fst (packLoop loc structType elementTypes index (NullValue :: vals) cur st)
    = Abort.
Proof. reflexivity. Qed.

Lemma packLoop_out_of_range loc structType elementTypes index v vals cur st :
  elementTypes !! index = None ->
  fst (packLoop loc structType elementTypes index (v :: vals) cur st) = Abort.
Proof.
  intros Hidx. cbn [packLoop].
  unfold bind, when, getType, at_index, checked, emitError.
  destruct v; cbn [isNull typeOf ret abort fst]; try done;
    rewrite Hidx; done.
Qed.

Definition nonNull (v : Value) : Prop := v <> NullValue.

Lemma nonNull_typeOf v : nonNull v <-> is_Some (typeOf v).
Proof.
  unfold nonNull. destruct v; simpl; split; try done;
    try (intros _; by eexists); by intros [? ?].
Qed.

(** The loop returns exactly when no value is null and the values fit in
    the fields that are left; what it builds does not depend on the types
    of the values. *)
Lemma packLoop_returns loc structType elementTypes vals :
  forall index cur st,
    Forall nonNull vals ->
    length vals <= length (drop index elementTypes) ->
    exists diags,
      packLoop loc structType elementTypes index vals cur st =
        (Ok (packedValue structType index vals cur),
         mkRewriter (created st ++ insertChain structType index vals cur)
                    (diagnostics st ++ diags)).
Proof.
  induction vals as [|v vals IH]; intros index cur st Hnn Hlen.
  - exists []. simpl. rewrite !app_nil_r. by destruct st.
  - inversion Hnn as [|? ? Hv Hrest]; subst.
    apply nonNull_typeOf in Hv as [vt Hv].
    destruct (lookup_lt_is_Some_2 elementTypes index) as [et Het].
    { rewrite length_drop in Hlen. simpl in Hlen. lia. }
    rewrite (packLoop_step _ _ _ _ _ _ _ _ vt et Hv Het).
    edestruct (IH (S index)) as [diags ->]; [done| |].
    { rewrite length_drop in *. simpl in Hlen. lia. }
    eexists. cbn [created diagnostics packedValue insertChain].
    by rewrite <- !app_assoc.
Qed.

Lemma packLoop_returns_inv loc structType elementTypes vals :
  forall index cur st v st',
    packLoop loc structType elementTypes index vals cur st = (Ok v, st') ->
    Forall nonNull vals /\ length vals <= length (drop index elementTypes).
Proof.
  induction vals as [|v0 vals IH]; intros index cur st v st' Hrun.
  - split; [constructor|simpl; lia].
  - destruct (typeOf v0) as [vt|] eqn:Hv.
    + destruct (elementTypes !! index) as [et|] eqn:Het.
      * rewrite (packLoop_step _ _ _ _ _ _ _ _ vt et Hv Het) in Hrun.
        apply IH in Hrun as [Hnn Hlen]. split.
        -- constructor; [|done]. apply nonNull_typeOf. by eexists.
        -- apply lookup_lt_Some in Het. rewrite length_drop in *.
           simpl. lia.
      * pose proof (packLoop_out_of_range loc structType elementTypes index
                      v0 vals cur st Het) as Habort.
        rewrite Hrun in Habort. done.
    + destruct v0; try discriminate Hv.
      pose proof (packLoop_null loc structType elementTypes index vals cur st)
        as Habort.
      rewrite Hrun in Habort. done.
Qed.

(** X4: When packing into an aggregate returns.  It returns exactly when no
    value is null and there are at most as many values as fields; the
    aggregate it returns and the operations it creates are then the undef
    followed by one insertion per value, whatever the types of the values:
    a type or size mismatch only adds diagnostics. *)
Theorem packLLElements_returns gept loc type body resultVals st :
  convertType gept type = Some (LLVMStructType body) ->
  let structType := LLVMStructType body in
  ((exists v st', packLLElements gept loc resultVals type st = (Ok v, st')) <->
   Forall nonNull resultVals /\ length resultVals <= length body) /\
  (forall v st',
     packLLElements gept loc resultVals type st = (Ok v, st') ->
     v = packedValue structType 0 resultVals (UndefOp structType) /\
     created st' =
       created st ++ UndefOp structType ::
         insertChain structType 0 resultVals (UndefOp structType)).
Proof.
  intros Hconv structType.
  rewrite (packLLElements_struct_run _ _ _ _ _ _ Hconv). fold structType.
  split; [split|].
  - intros (v & st' & Hrun). by apply packLoop_returns_inv in Hrun.
  - intros [Hnn Hlen].
    edestruct (packLoop_returns loc structType body resultVals 0
                 (UndefOp structType)) as [diags ->]; [done|done|].
    by do 2 eexists.
  - intros v st' Hrun.
    pose proof (packLoop_returns_inv _ _ _ _ _ _ _ _ _ Hrun) as [Hnn Hlen].
    edestruct (packLoop_returns loc structType body resultVals 0
                 (UndefOp structType)) as [diags Heq]; [done|done|].
    rewrite Heq in Hrun. injection Hrun as <- <-.
    cbn [created]. by rewrite <- app_assoc.
Qed.

Lemma packLLElements_returns_witness :
  exists v st',
    packLLElements (fun _ => 4) "loc"
      [OuterValue 0 (IntegerType 1); OuterValue 1 (FloatType F64)]
      blockedTensor emptyRewriter = (Ok v, st').
Proof.
  apply (proj1 (packLLElements_returns (fun _ => 4) "loc" blockedTensor
                  (replicate 4 (FloatType F32))
                  [OuterValue 0 (IntegerType 1); OuterValue 1 (FloatType F64)]
                  emptyRewriter eq_refl)).
  split; [by repeat constructor|simpl; lia].
Defined.

Lemma packLoop_clean loc structType elementTypes vals :
  forall index cur st v st',
    packLoop loc structType elementTypes index vals cur st = (Ok v, st') ->
    diagnostics st' = diagnostics st ->
    wellTyped vals (take (length vals) (drop index elementTypes)).
Proof.
  induction vals as [|v0 vals IH]; intros index cur st v st' Hrun Hdiags.
  - constructor.
  - pose proof (packLoop_returns_inv _ _ _ _ _ _ _ _ _ Hrun) as [Hnn Hlen].
    inversion Hnn as [|? ? Hv _]; subst.
    apply nonNull_typeOf in Hv as [vt Hv].
    destruct (lookup_lt_is_Some_2 elementTypes index) as [et Het].
    { rewrite length_drop in Hlen. simpl in Hlen. lia. }
    rewrite (packLoop_step _ _ _ _ _ _ _ _ vt et Hv Het) in Hrun.
    rewrite (drop_S _ _ _ Het). cbn [length take].
    destruct (Ty_eqb vt et) eqn:Heq.
    + apply Ty_eqb_eq in Heq as ->. constructor; [done|].
      eapply IH; [exact Hrun|]. cbn [diagnostics]. by rewrite app_nil_r.
    + exfalso.
      pose proof (monotone_packLoop loc structType elementTypes vals (S index)
                    (InsertValueOp structType cur v0 index)) as Hmono.
      match type of Hrun with
      | packLoop _ _ _ _ _ _ ?st1 = _ => specialize (Hmono st1)
      end.
      rewrite Hrun in Hmono. apply extends_diagnostics in Hmono.
      cbn [snd diagnostics] in Hmono.
      rewrite Hdiags, length_app in Hmono. simpl in Hmono. lia.
Qed.

(** X5: The diagnostics of packing are complete: packing into an aggregate
    returns without having emitted a diagnostic exactly when the values are
    as many as the fields, none is null and each has the type of its
    field. *)
Theorem packLLElements_silent_iff_wellTyped gept loc type body resultVals st :
  convertType gept type = Some (LLVMStructType body) ->
  (exists v st',
     packLLElements gept loc resultVals type st = (Ok v, st') /\
     diagnostics st' = diagnostics st) <->
  wellTyped resultVals body.
Proof.
  intros Hconv. split.
  - intros (v & st' & Hrun & Hdiags).
    rewrite (packLLElements_struct_run _ _ _ _ _ _ Hconv) in Hrun.
    destruct (decide (length body = length resultVals)) as [Hlen|Hlen].
    + rewrite bool_decide_true in Hrun by done.
      apply packLoop_clean in Hrun.
      * by rewrite drop_0, <- Hlen, firstn_all in Hrun.
      * cbn [diagnostics]. by rewrite app_nil_r.
    + exfalso. rewrite bool_decide_false in Hrun by done.
      pose proof (monotone_packLoop loc (LLVMStructType body) body resultVals
                    0 (UndefOp (LLVMStructType body))) as Hmono.
      match type of Hrun with
      | packLoop _ _ _ _ _ _ ?st1 = _ => specialize (Hmono st1)
      end.
      rewrite Hrun in Hmono. apply extends_diagnostics in Hmono.
      cbn [snd diagnostics] in Hmono.
      rewrite Hdiags, length_app in Hmono. simpl in Hmono. lia.
  - intros Hty.
    destruct (packLLElements_wellTyped gept loc type body resultVals st
                Hconv Hty) as (Hpack & _).
    do 2 eexists. split; [exact Hpack|done].
Qed.

Lemma packLLElements_silent_iff_wellTyped_witness :
  wellTyped fourFloats (replicate 4 (FloatType F32)).
Proof.
  apply (proj1 (packLLElements_silent_iff_wellTyped (fun _ => 4) "loc"
                  blockedTensor (replicate 4 (FloatType F32)) fourFloats
                  emptyRewriter eq_refl)).
  do 2 eexists. split; [vm_compute; reflexivity|reflexivity].
Defined.

Definition isShared (layout : Attribute) : bool :=
  match layout with SharedEncodingAttr _ _ _ _ => true | _ => false end.

Lemma wellTyped_replicate vals t :
  Forall (fun v => typeOf v = Some t) vals ->
  wellTyped vals (replicate (length vals) t).
Proof. induction 1; constructor; done. Qed.

(** X6: A register-resident tensor (any layout but Shared) converts to a struct
    of elements-per-thread copies of the resolved element type, and packing
    values of that type for it is free of diagnostics exactly when there
    are elements-per-thread of them. *)
Theorem distributed_tensor_packs_elemsPerThread
  gept loc type layout eltType resultVals st :
  getEncoding type = Some layout ->
  isShared layout = false ->
  getElementTypeForStruct (convertType gept) type = Some eltType ->
  Forall (fun v => typeOf v = Some eltType) resultVals ->
  convertType gept (asType type) =
    Some (LLVMStructType (replicate (gept (asType type)) eltType)) /\
  (diagnostics (snd (packLLElements gept loc resultVals (asType type) st)) =
     diagnostics st <->
   length resultVals = gept (asType type)).
Proof.
  intros Henc Hshared Helt Hvals.
  assert (convertType gept (asType type) =
          Some (LLVMStructType (replicate (gept (asType type)) eltType)))
    as Hconv.
  { destruct type as [shape elt enc]. simpl in *.
    unfold convertTritonTensorType.
    rewrite (TypeConverterProps.getElementTypeForStruct_handle_Some _ _ _ Helt).
    simpl. subst enc. by destruct layout. }
  split; [done|]. split.
  - intros Hdiags.
    destruct (decide (length resultVals = gept (asType type))); [done|].
    exfalso.
    rewrite (packLLElements_struct_run _ _ _ _ _ _ Hconv) in Hdiags.
    rewrite bool_decide_false in Hdiags
      by (rewrite length_replicate; congruence).
    match type of Hdiags with
    | diagnostics (snd (packLoop ?l ?s ?e ?i ?v ?c ?st1)) = _ =>
        pose proof (monotone_packLoop l s e v i c st1) as Hmono
    end.
    apply extends_diagnostics in Hmono. rewrite Hdiags in Hmono.
    cbn [diagnostics] in Hmono. rewrite length_app in Hmono.
    simpl in Hmono. lia.
  - intros Hlen.
    apply wellTyped_replicate in Hvals. rewrite Hlen in Hvals.
    destruct (packLLElements_wellTyped gept loc (asType type) _ resultVals st
                Hconv Hvals) as (-> & _). done.
Qed.

Lemma distributed_tensor_packs_elemsPerThread_witness :
  diagnostics
    (snd (packLLElements (fun _ => 4) "loc" fourFloats blockedTensor
            emptyRewriter)) = diagnostics emptyRewriter <->
  length fourFloats = 4.
Proof.
  apply (distributed_tensor_packs_elemsPerThread (fun _ => 4) "loc"
           (mkTensor [128%Z] (FloatType F32)
              (Some (BlockedEncodingAttr [1] [32] [4] [0])))
           (BlockedEncodingAttr [1] [32] [4] [0]) (FloatType F32)
           fourFloats emptyRewriter eq_refl eq_refl eq_refl).
  repeat constructor.
Defined.

(** The types [unpackLLElements] returns as they are. *)
Definition isScalarLike (t : Ty) : bool :=
  match t with
  | IntegerType _ | FloatType _ | PointerType _ _ | LLVMPointerType _ _ => true
  | _ => false
  end.

(** X7: For a type that does not convert to an aggregate, packing returns its
    single value itself and aborts on any other number of values, and
    unpacking a value of a scalar or pointer type returns that value alone;
    neither creates an operation nor emits a diagnostic, so the round trip
    is the identity on the values themselves. *)
Theorem scalar_pack_unpack gept loc type converted st :
  convertType gept type = Some converted ->
  dyn_cast_LLVMStructType converted = None ->
  (forall v, packLLElements gept loc [v] type st = (Ok v, st)) /\
  (forall resultVals,
     length resultVals <> 1 ->
     packLLElements gept loc resultVals type st = (Abort, st)) /\
  (forall v vt,
     typeOf v = Some vt -> isScalarLike vt = true ->
     unpackLLElements loc v type st = (Ok [v], st) /\
     bind (packLLElements gept loc [v] type)
          (fun packed => unpackLLElements loc packed type) st = (Ok [v], st)).
Proof.
  intros Hconv Hstruct.
  assert (forall resultVals,
            packLLElements gept loc resultVals type st =
            bind (assert (bool_decide (length resultVals = 1)))
                 (fun _ => checked (head resultVals)) st) as Hpack.
  { intros resultVals. unfold packLLElements at 1, bind at 1, checked at 1.
    rewrite Hconv. cbn [ret]. by rewrite Hstruct. }
  assert (forall v vt,
            typeOf v = Some vt -> isScalarLike vt = true ->
            unpackLLElements loc v type st = (Ok [v], st)) as Hunpack.
  { intros v vt Hv Hscalar.
    unfold unpackLLElements, bind, assert, getType, checked.
    assert (isNull v = false) as -> by (by destruct v).
    cbn [negb ret]. rewrite Hv. cbn [ret]. by destruct vt. }
  split; [|split].
  - intros v. by rewrite Hpack.
  - intros resultVals Hlen. rewrite Hpack. unfold bind, assert.
    by rewrite bool_decide_false.
  - intros v vt Hv Hscalar. split; [by eapply Hunpack|].
    unfold bind at 1. rewrite Hpack. cbn. by eapply Hunpack.
Qed.

Lemma scalar_pack_unpack_witness :
  bind (packLLElements (fun _ => 4) "loc"
          [OuterValue 5 (LLVMPointerType (FloatType F32) 1)]
          (PointerType (FloatType F32) 1))
       (fun packed =>
          unpackLLElements "loc" packed (PointerType (FloatType F32) 1))
       emptyRewriter =
  (Ok [OuterValue 5 (LLVMPointerType (FloatType F32) 1)], emptyRewriter).
Proof.
  apply (proj2 (proj2 (scalar_pack_unpack (fun _ => 4) "loc"
           (PointerType (FloatType F32) 1) (LLVMPointerType (FloatType F32) 1)
           emptyRewriter eq_refl eq_refl))
         (OuterValue 5 (LLVMPointerType (FloatType F32) 1))
         (LLVMPointerType (FloatType F32) 1) eq_refl eq_refl).
Defined.

(** The values [unpackLLElements] accepts: those that are not null and
    whose type is neither a vector nor a tensor. *)
Definition unpackable (v : Value) : bool :=
  match typeOf v with
  | None | Some (VectorType _ _) | Some (TensorOf _ _ _) => false
  | Some _ => true
  end.

Lemma extractFrom_lookup llvmStruct types :
  forall k i,
    extractFrom llvmStruct k types !! i =
      (fun t => ExtractValueOp t llvmStruct (k + i)) <$> types !! i.
Proof.
  induction types as [|t types IH]; intros k [|i]; simpl; try done.
  - by rewrite Nat.add_0_r.
  - rewrite IH. by replace (S k + i) with (k + S i) by lia.
Qed.

Lemma extractFrom_length llvmStruct types :
  forall k, length (extractFrom llvmStruct k types) = length types.
Proof. induction types as [|t types IH]; intros k; simpl; by rewrite ?IH. Qed.

(** X8: Unpacking never emits a diagnostic.  It returns exactly on the values
    that are not null and whose type is neither a vector nor a tensor, and
    aborts on the others without creating anything.  On a value of a struct
    type it returns one value per field, the i-th being the extraction of
    field i with the type of that field, and creates exactly these
    operations, in field order. *)
Theorem unpackLLElements_behaviour loc llvmStruct type st :
  diagnostics (snd (unpackLLElements loc llvmStruct type st)) =
    diagnostics st /\
  ((exists unpacked st',
      unpackLLElements loc llvmStruct type st = (Ok unpacked, st')) <->
   unpackable llvmStruct = true) /\
  (unpackable llvmStruct = false ->
   unpackLLElements loc llvmStruct type st = (Abort, st)) /\
  (forall body,
     typeOf llvmStruct = Some (LLVMStructType body) ->
     exists unpacked,
       unpackLLElements loc llvmStruct type st =
         (Ok unpacked,
          mkRewriter (created st ++ unpacked) (diagnostics st)) /\
       length unpacked = length body /\
       forall i,
         unpacked !! i =
           (fun t => ExtractValueOp t llvmStruct i) <$> body !! i).
Proof.
  assert (forall body,
            typeOf llvmStruct = Some (LLVMStructType body) ->
            unpackLLElements loc llvmStruct type st =
              (Ok (extractFrom llvmStruct 0 body),
               mkRewriter (created st ++ extractFrom llvmStruct 0 body)
                          (diagnostics st))) as Hstruct.
  { intros body Hty. by apply unpackLLElements_struct. }
  assert (unpackable llvmStruct = false ->
          unpackLLElements loc llvmStruct type st = (Abort, st)) as Habort.
  { unfold unpackable. intros Hun.
    unfold unpackLLElements, bind, assert, getType, checked.
    destruct llvmStruct as [|id t|t|t c v p|t c p]; [done|..];
      cbn [isNull negb ret typeOf] in *; by destruct t. }
  assert (unpackable llvmStruct = true ->
          exists unpacked ops,
            unpackLLElements loc llvmStruct type st =
              (Ok unpacked,
               mkRewriter (created st ++ ops) (diagnostics st))) as Hok.
  { unfold unpackable. intros Hun.
    destruct (typeOf llvmStruct) as [vt|] eqn:Hv; [|done].
    destruct (isScalarLike vt) eqn:Hscalar.
    - exists [llvmStruct], [].
      unfold unpackLLElements, bind, assert, getType, checked.
      assert (isNull llvmStruct = false) as -> by (by destruct llvmStruct).
      cbn [negb ret]. rewrite Hv. cbn [ret]. rewrite app_nil_r.
      destruct vt; try done; by destruct st.
    - destruct vt; try done. do 2 eexists. by apply Hstruct. }
  split; [|split; [|split]].
  - destruct (unpackable llvmStruct) eqn:Hun.
    + destruct (Hok eq_refl) as (unpacked & ops & ->). done.
    + by rewrite Habort.
  - split.
    + intros (unpacked & st' & Hrun).
      destruct (unpackable llvmStruct) eqn:Hun; [done|].
      rewrite Habort in Hrun by done. done.
    + intros Hun. destruct (Hok Hun) as (unpacked & ops & ->). by do 2 eexists.
  - exact Habort.
  - intros body Hty. exists (extractFrom llvmStruct 0 body).
    split; [by apply Hstruct|]. split; [apply extractFrom_length|].
    intros i. by rewrite extractFrom_lookup.
Qed.

Lemma unpackLLElements_behaviour_witness :
  unpackLLElements "loc" (OuterValue 0 (VectorType 2 (FloatType F16)))
    (VectorType 2 (FloatType F16)) emptyRewriter = (Abort, emptyRewriter).
Proof.
  apply (proj1 (proj2 (proj2 (unpackLLElements_behaviour "loc"
           (OuterValue 0 (VectorType 2 (FloatType F16)))
           (VectorType 2 (FloatType F16)) emptyRewriter)))).
  reflexivity.
Defined.

End PackingExtras.

(** ** Operand types of loads and stores, casts, and the load builder *)

Module OpsExtras.
Import TritonOps TritonOpsMore.

(** The shape and the encoding of a tensor type; a scalar has none. *)
Definition shapeOf (t : Ty) : option (list Z * option Attribute) :=
  tensorType ← dyn_cast_RankedTensorType t;
  Some (getShape tensorType, getEncoding tensorType).

(** A tensor type without its encoding; a scalar as it is. *)
Definition dropEncoding (t : Ty) : Ty :=
  match t with
  | TensorOf shape elt _ => TensorOf shape elt None
  | _ => t
  end.

Lemma sameShape_helpers t :
  shapeOf (getI1SameShape t) = shapeOf t /\
  shapeOf (getI32SameShape t) = shapeOf t /\
  shapeOf (getPointerTypeSameShape t) = shapeOf t.
Proof. by destruct t. Qed.

(** X9: The result type of a load undoes [getPointerTypeSameShape] except for
    the encoding, which it drops: the round trip returns the type itself
    exactly when the type is a scalar or a tensor without encoding.  A type
    that is neither a pointer nor a tensor of pointers is a failed cast. *)
Theorem getLoadOpResultType_of_pointer_type t :
  getLoadOpResultType (getPointerTypeSameShape t) = Some (dropEncoding t) /\
  (getLoadOpResultType (getPointerTypeSameShape t) = Some t <->
   forall shape elt enc, t = TensorOf shape elt enc -> enc = None) /\
  (forall ptrType,
     is_Some (getLoadOpResultType ptrType) <->
     (exists pointee addressSpace,
        ptrType = PointerType pointee addressSpace \/
        exists shape enc,
          ptrType = TensorOf shape (PointerType pointee addressSpace) enc)).
Proof.
  split; [by destruct t|]. split.
  - destruct t as [| | | | | |shape elt [enc|]]; simpl; split;
      try (intros _ ? ? ? H; congruence); try done.
    intros H. specialize (H _ _ _ eq_refl). congruence.
  - intros ptrType. split.
    + intros [r Hr].
      destruct ptrType as [| |p s| | | |shape [| |p s| | | |] enc];
        try discriminate Hr; exists p, s; eauto.
    + intros (pointee & addressSpace & [->|(shape & enc & ->)]); by eexists.
Qed.

(** X10: The operand types [LoadOp::parse] asks for are as many as the operands
    read exactly when there are one, two or three operands; the
    operand_segment_sizes it records always add up to the number of operand
    types; and every operand type has the shape and encoding of the result
    type. *)
Theorem LoadOp_parse_operandTypes_count allOperands resultType :
  let '(operandTypes, segmentSizes) :=
    LoadOp_parse_operandTypes allOperands resultType in
  (length operandTypes = allOperands <-> 1 <= allOperands <= 3) /\
  foldr Nat.add 0 segmentSizes = length operandTypes /\
  Forall (fun t => shapeOf t = shapeOf resultType) operandTypes.
Proof.
  unfold LoadOp_parse_operandTypes.
  pose proof (sameShape_helpers resultType) as (Hi1 & _ & Hptr).
  do 2 case_bool_decide; simpl; (split; [lia|split; [done|]]);
    repeat constructor; done.
Qed.

(** X11: The operand types [StoreOp::parse] asks for are as many as the operands
    read exactly when there are two or three operands, and each has the
    shape and encoding of the value type. *)
Theorem StoreOp_parse_operandTypes_count allOperands valueType :
  (length (StoreOp_parse_operandTypes allOperands valueType) = allOperands <->
   2 <= allOperands <= 3) /\
  Forall (fun t => shapeOf t = shapeOf valueType)
         (StoreOp_parse_operandTypes allOperands valueType).
Proof.
  unfold StoreOp_parse_operandTypes.
  pose proof (sameShape_helpers valueType) as (Hi1 & _ & Hptr).
  case_bool_decide; simpl; (split; [lia|]); repeat constructor; done.
Qed.

Section BuildProps.

Variable CacheModifier : Type.
Variable EvictionPolicy : Type.

Abbreviation State := (OperationState CacheModifier EvictionPolicy).

(** The operand_segment_sizes attribute added last to a state. *)
Fixpoint segmentSizesOf
  (attrs : list (AttrName * OpAttr CacheModifier EvictionPolicy))
  : option (list nat) :=
  match attrs with
  | [] => None
  | (name, a) :: rest =>
      match segmentSizesOf rest with
      | Some sizes => Some sizes
      | None =>
          match name, a with
          | OperandSegmentSizesAttrName, DenseI32ArrayAttr _ _ sizes =>
              Some sizes
          | _, _ => None
          end
      end
  end.

(** X12: [LoadOp::build] on an empty state: the one result type it adds is the
    load result type of the pointer's type, and the segment sizes it records
    add up to the number of operands it adds exactly when the other value
    is not given without a mask.  With a null mask and a non-null other
    value, the other value is counted in the segment sizes but not added to
    the operands. *)
Theorem LoadOp_build_segments ptr mask other cache evict isVolatile
  (state' : State) :
  LoadOp_build CacheModifier EvictionPolicy (mkState _ _ [] [] []) ptr mask
    other cache evict isVolatile = Some state' ->
  (exists ptrType resultType,
     typeOf ptr = Some ptrType /\
     getLoadOpResultType ptrType = Some resultType /\
     stateTypes _ _ state' = [resultType]) /\
  (exists sizes,
     segmentSizesOf (stateAttributes _ _ state') = Some sizes /\
     (foldr Nat.add 0 sizes = length (stateOperands _ _ state') <->
      (isNull mask = true -> isNull other = true))).
Proof.
  unfold LoadOp_build. intros Hbuild.
  destruct (typeOf ptr) as [ptrType|] eqn:Hptr; [|done]. simpl in Hbuild.
  destruct (getLoadOpResultType ptrType) as [resultType|] eqn:Hres; [|done].
  simpl in Hbuild. injection Hbuild as <-.
  destruct (isNull mask), (isNull other); simpl; (split;
    [by exists ptrType, resultType
    |eexists; split; [reflexivity|]; simpl; split; try done; lia]).
Qed.

End BuildProps.

Definition tensorOfPointers : Value :=
  OuterValue 0
    (TensorOf [64%Z] (PointerType (FloatType F32) 1)
       (Some (BlockedEncodingAttr [1] [32] [4] [0]))).

Definition otherValue : Value :=
  OuterValue 1
    (TensorOf [64%Z] (FloatType F32)
       (Some (BlockedEncodingAttr [1] [32] [4] [0]))).

Lemma LoadOp_build_segments_witness :
  exists sizes,
    segmentSizesOf unit unit
      (stateAttributes unit unit
         (mkState unit unit [tensorOfPointers]
            [(OperandSegmentSizesAttrName, DenseI32ArrayAttr unit unit [1; 0; 1]);
             (CacheAttrName, CacheModifierAttr unit unit tt);
             (EvictAttrName, EvictionPolicyAttr unit unit tt);
             (IsVolatileAttrName, BoolAttr unit unit false)]
            [TensorOf [64%Z] (FloatType F32) None])) = Some sizes /\
    (foldr Nat.add 0 sizes = 1 <->
     (isNull NullValue = true -> isNull otherValue = true)).
Proof.
  apply (proj2 (LoadOp_build_segments unit unit tensorOfPointers NullValue
                  otherValue tt tt false _ eq_refl)).
Defined.

Section CastProps.

Variable isFloat8Type : Ty -> bool.

(** The four float types a cast may pair with the 8-bit float type. *)
Definition isWideFloat (t : Ty) : bool :=
  isF16 t || isBF16 t || isF32 t || isF64 t.

(** The 8-bit float type of the dialect is none of the builtin floats. *)
Hypothesis float8_not_wide :
  forall t, isFloat8Type t = true -> isWideFloat t = false.

(** The two types a cast is judged on: the element types when both sides
    are tensors, the types themselves otherwise. *)
Definition castSides (src dst : Ty) : Ty * Ty :=
  match dyn_cast_RankedTensorType src, dyn_cast_RankedTensorType dst with
  | Some srcTensorType, Some dstTensorType =>
      (getElementType srcTensorType, getElementType dstTensorType)
  | _, _ => (src, dst)
  end.

(** X13: [areCastCompatible] accepts a cast exactly when one side is the 8-bit
    float type and the other one of f16, bf16, f32, f64, judged on the
    element types when both sides are tensors.  It is therefore symmetric
    in its two sides, and it compares neither the shapes nor the encodings
    of two tensors. *)
Theorem areCastCompatible_spec :
  (forall src dst,
     areCastCompatible isFloat8Type [src] [dst] = true <->
     (isFloat8Type (castSides src dst).1 = true /\
      isWideFloat (castSides src dst).2 = true) \/
     (isWideFloat (castSides src dst).1 = true /\
      isFloat8Type (castSides src dst).2 = true)) /\
  (forall inputs outputs,
     areCastCompatible isFloat8Type inputs outputs =
     areCastCompatible isFloat8Type outputs inputs) /\
  (forall shape shape' enc enc' src dst,
     areCastCompatible isFloat8Type
       [TensorOf shape src enc] [TensorOf shape' dst enc'] =
     areCastCompatible isFloat8Type
       [TensorOf [] src None] [TensorOf [] dst None]).
Proof.
  assert (forall a b,
            (if isFloat8Type b
             then (if negb (isFloat8Type b) then false else isWideFloat a)
             else (if negb (isFloat8Type a) then false else isWideFloat b)) =
            (isFloat8Type a && isWideFloat b) ||
            (isWideFloat a && isFloat8Type b)) as Hcore.
  { intros a b.
    destruct (isFloat8Type a) eqn:Ha, (isFloat8Type b) eqn:Hb; simpl;
      rewrite ?(float8_not_wide _ Ha), ?(float8_not_wide _ Hb);
      by destruct (isWideFloat a), (isWideFloat b). }
  assert (forall src dst,
            areCastCompatible isFloat8Type [src] [dst] =
            (isFloat8Type (castSides src dst).1 &&
             isWideFloat (castSides src dst).2) ||
            (isWideFloat (castSides src dst).1 &&
             isFloat8Type (castSides src dst).2)) as Hbool.
  { intros src dst. rewrite <- Hcore. unfold areCastCompatible, castSides.
    destruct (dyn_cast_RankedTensorType src) as [s|],
             (dyn_cast_RankedTensorType dst) as [d|]; cbn [fst snd];
      match goal with
      | |- context [if isFloat8Type ?b then (?b, _) else _] =>
          destruct (isFloat8Type b) eqn:Hb; cbn [negb]; rewrite ?Hb; done
      end. }
  split; [|split].
  - intros src dst. rewrite Hbool.
    rewrite orb_true_iff, !andb_true_iff. done.
  - intros [|src [|]] [|dst [|]]; try done. rewrite !Hbool.
    assert (castSides dst src = ((castSides src dst).2, (castSides src dst).1))
      as ->.
    { unfold castSides.
      by destruct (dyn_cast_RankedTensorType src),
                  (dyn_cast_RankedTensorType dst). }
    simpl. rewrite orb_comm. f_equal; apply andb_comm.
  - intros. by rewrite !Hbool.
Qed.

End CastProps.

(** The builtin 8-bit floats in the place of the dialect's 8-bit float
    type. *)
Definition isBuiltinFloat8 (t : Ty) : bool :=
  match t with
  | FloatType Float8E4M3FN | FloatType Float8E5M2 => true
  | _ => false
  end.

Lemma areCastCompatible_spec_witness :
  areCastCompatible isBuiltinFloat8
    [TensorOf [8%Z] (FloatType Float8E5M2) None]
    [TensorOf [16%Z; 2%Z] (FloatType F32) None] =
  areCastCompatible isBuiltinFloat8
    [TensorOf [] (FloatType Float8E5M2) None]
    [TensorOf [] (FloatType F32) None].
Proof.
  refine (proj2 (proj2 (areCastCompatible_spec isBuiltinFloat8 _))
            [8%Z] [16%Z; 2%Z] None None (FloatType Float8E5M2) (FloatType F32)).
  intros [| [] | | | | |]; try discriminate; reflexivity.
Defined.

End OpsExtras.

(** ** Result-type inference on its successful paths *)

Module InferenceExtras.
Import TritonOps TritonOpsMore.

Lemma operandTensorType_at operands i arg shape elt enc st :
  operands !! i = Some arg ->
  typeOf arg = Some (TensorOf shape elt enc) ->
  operandTensorType operands i st = (Ok (mkTensor shape elt enc), st).
Proof.
  intros Hop Hty. unfold operandTensorType, bind, at_index, getType, checked.
  rewrite Hop. cbn [ret]. by rewrite Hty.
Qed.

(** The state after one more inferred type. *)
Definition pushed (t : Ty) (st : InferState) : InferState :=
  mkInfer (inferredReturnTypes st ++ [t]) (emitted st).

Section WithInterface.

Context {inferLayoutInterface : DialectInferLayoutInterface}.

Variable location : option Location.
Variable attributes : gmap string AttrValue.

(** X14: The transpose infers the tensor of the reversed shape with the same
    element type, and with the encoding the interface infers when the
    operand has one.  On tensors without encoding it is an involution:
    inferring the type of the transpose of the transpose gives back the
    operand's type. *)
Theorem TransOp_infers_reversed_shape arg rest shape elt st :
  (forall enc retEncoding,
     typeOf arg = Some (TensorOf shape elt (Some enc)) ->
     inferTransOpEncoding enc = (success, retEncoding) ->
     TransOp_inferReturnTypes location (arg :: rest) attributes st =
       (Ok success, pushed (TensorOf (reverse shape) elt retEncoding) st)) /\
  (typeOf arg = Some (TensorOf shape elt None) ->
   TransOp_inferReturnTypes location (arg :: rest) attributes st =
     (Ok success, pushed (TensorOf (reverse shape) elt None) st) /\
   forall arg' rest' st',
     typeOf arg' = Some (TensorOf (reverse shape) elt None) ->
     TransOp_inferReturnTypes location (arg' :: rest') attributes st' =
       (Ok success, pushed (TensorOf shape elt None) st')).
Proof.
  assert (forall a r sh st0,
            typeOf a = Some (TensorOf sh elt None) ->
            TransOp_inferReturnTypes location (a :: r) attributes st0 =
              (Ok success, pushed (TensorOf (reverse sh) elt None) st0))
    as Hplain.
  { intros a r sh st0 Hty. unfold TransOp_inferReturnTypes, bind.
    by rewrite (operandTensorType_at (a :: r) 0 a sh elt None st0 eq_refl Hty). }
  split.
  - intros enc retEncoding Hty Hinfer. unfold TransOp_inferReturnTypes, bind.
    rewrite (operandTensorType_at (arg :: rest) 0 arg shape elt (Some enc) st eq_refl Hty).
    cbn [getEncoding]. by rewrite Hinfer.
  - intros Hty. split; [by apply Hplain|].
    intros arg' rest' st' Hty'. rewrite (Hplain _ _ _ _ Hty').
    by rewrite reverse_involutive.
Qed.

(** X15: The type a reduction infers.  A tensor of rank 1 reduces to a scalar,
    whatever its encoding and without asking the interface; a tensor of
    higher rank reduces to the tensor with the axis removed.  The element
    type is the 32-bit integer for the index reductions and the operand's
    element type for the others. *)
Theorem ReduceOp_infers arg rest shape elt enc redOp axis st :
  typeOf arg = Some (TensorOf shape elt enc) ->
  attributes !! "redOp" = Some (RedOpAttr redOp) ->
  attributes !! "axis" = Some (IntegerAttr axis) ->
  (0 ≤ axis < Z.of_nat (length shape))%Z ->
  let retEltTy := if withIndex redOp then IntegerType 32 else elt in
  let retShape := delete (Z.to_nat axis) shape in
  length retShape = pred (length shape) /\
  (length shape = 1 ->
   ReduceOp_inferReturnTypes location (arg :: rest) attributes st =
     (Ok success, pushed retEltTy st)) /\
  (1 < length shape ->
   (enc = None ->
    ReduceOp_inferReturnTypes location (arg :: rest) attributes st =
      (Ok success, pushed (TensorOf retShape retEltTy None) st)) /\
   (forall argEncoding retEncoding,
      enc = Some argEncoding ->
      inferReduceOpEncoding argEncoding axis = (success, retEncoding) ->
      ReduceOp_inferReturnTypes location (arg :: rest) attributes st =
        (Ok success, pushed (TensorOf retShape retEltTy retEncoding) st))).
Proof.
  intros Hty HredOp Haxis Hrange retEltTy retShape.
  assert (length retShape = pred (length shape)) as Hlen.
  { unfold retShape. rewrite length_delete; [lia|].
    apply lookup_lt_is_Some_2. lia. }
  assert (ReduceOp_inferReturnTypes location (arg :: rest) attributes st =
          match retShape with
          | [] => (Ok success, pushed retEltTy st)
          | _ =>
              match enc with
              | Some argEncoding =>
                  let '(inferred, retEncoding) :=
                    inferReduceOpEncoding argEncoding axis in
                  if failed inferred
                  then (Fatal "failed to infer layout for ReduceOp", st)
                  else (Ok success,
                        pushed (TensorOf retShape retEltTy retEncoding) st)
              | None =>
                  (Ok success, pushed (TensorOf retShape retEltTy None) st)
              end
          end) as ->.
  { unfold ReduceOp_inferReturnTypes, bind.
    rewrite (operandTensorType_at (arg :: rest) 0 arg shape elt enc st eq_refl Hty).
    rewrite HredOp. cbn [getRedOp ret]. rewrite Haxis. cbn [getInt ret].
    cbn [getShape getElementType getEncoding].
    rewrite bool_decide_true by done. cbn [assert ret].
    fold retShape. destruct retShape; [done|].
    destruct enc as [argEncoding|]; [|done].
    by destruct (inferReduceOpEncoding argEncoding axis) as [[] ?]. }
  split; [done|]. split.
  - intros H1. destruct retShape; [done|]. simpl in Hlen. lia.
  - intros Hrank. destruct retShape as [|d retShape'] eqn:Hshape;
      [simpl in Hlen; lia|].
    split.
    + by intros ->.
    + intros argEncoding retEncoding -> Hinfer. by rewrite Hinfer.
Qed.

(** X16: Expanding a dimension and reducing it again.  On a tensor without
    encoding of rank at least 1, the type inferred for an expand-dims at an
    axis is the tensor with a dimension of extent 1 inserted there, and the
    type inferred for a reduction of such a tensor along the same axis is
    the operand's shape again, with the element type of the reduction. *)
Theorem ExpandDims_then_Reduce arg rest shape elt redOp axis st :
  typeOf arg = Some (TensorOf shape elt None) ->
  shape <> [] ->
  attributes !! "redOp" = Some (RedOpAttr redOp) ->
  attributes !! "axis" = Some (IntegerAttr axis) ->
  (0 ≤ axis ≤ Z.of_nat (length shape))%Z ->
  let expanded :=
    TensorOf (take (Z.to_nat axis) shape ++ 1%Z :: drop (Z.to_nat axis) shape)
             elt None in
  ExpandDimsOp_inferReturnTypes location (arg :: rest) attributes st =
    (Ok success, pushed expanded st) /\
  forall arg' rest' st',
    typeOf arg' = Some expanded ->
    ReduceOp_inferReturnTypes location (arg' :: rest') attributes st' =
      (Ok success,
       pushed (TensorOf shape
                 (if withIndex redOp then IntegerType 32 else elt) None) st').
Proof.
  intros Hty Hshape HredOp Haxis Hrange expanded. split.
  - unfold ExpandDimsOp_inferReturnTypes, bind.
    rewrite (operandTensorType_at (arg :: rest) 0 arg shape elt None st eq_refl Hty).
    rewrite Haxis. cbn [getInt ret getShape].
    by rewrite bool_decide_true by done.
  - intros arg' rest' st' Hty'.
    assert (delete (Z.to_nat axis)
              (take (Z.to_nat axis) shape ++ 1%Z :: drop (Z.to_nat axis) shape)
            = shape) as Hdelete.
    { rewrite <- (take_drop (Z.to_nat axis) shape) at 3.
      rewrite <- (delete_middle (take (Z.to_nat axis) shape)
                    (drop (Z.to_nat axis) shape) 1%Z) at 1.
      by rewrite length_take_le by lia. }
    unfold ReduceOp_inferReturnTypes, bind.
    rewrite (operandTensorType_at (arg' :: rest') 0 arg' _ elt None st' eq_refl Hty').
    rewrite HredOp. cbn [getRedOp ret]. rewrite Haxis. cbn [getInt ret].
    cbn [getShape getElementType getEncoding].
    rewrite bool_decide_true
      by (rewrite length_app, length_take_le by lia; simpl;
          rewrite length_drop; lia).
    cbn [assert ret]. rewrite Hdelete. by destruct shape.
Qed.

End WithInterface.

(** An interface to run examples with: a Shared layout transposes to the
    Shared layout of the reversed order, a reduction gives the Slice of its
    operand's layout and an expand-dims undoes a Slice at the same
    dimension. *)
Definition exampleInterface : DialectInferLayoutInterface := {|
  inferTransOpEncoding := fun enc =>
    match enc with
    | SharedEncodingAttr vec perPhase maxPhase order =>
        (success, Some (SharedEncodingAttr vec perPhase maxPhase (reverse order)))
    | _ => (failure, None)
    end;
  inferReduceOpEncoding := fun enc axis =>
    (success, Some (SliceEncodingAttr (Z.to_nat axis) enc));
  inferExpandDimsOpEncoding := fun enc axis _ =>
    match enc with
    | SliceEncodingAttr dim parent =>
        if bool_decide (dim = Z.to_nat axis) then (success, Some parent)
        else (failure, None)
    | _ => (failure, None)
    end
|}.

Definition reduceAttrs (redOp : RedOp) (axis : Z) : gmap string AttrValue :=
  <["axis" := IntegerAttr axis]> (<["redOp" := RedOpAttr redOp]> ∅).

Definition noTypes : InferState := mkInfer [] [].

Lemma TransOp_infers_reversed_shape_witness :
  @TransOp_inferReturnTypes exampleInterface None
    [OuterValue 0 (TensorOf [2%Z; 3%Z; 5%Z] (FloatType F32) None)] ∅ noTypes =
    (Ok success,
     pushed (TensorOf (reverse [2%Z; 3%Z; 5%Z]) (FloatType F32) None) noTypes) /\
  @TransOp_inferReturnTypes exampleInterface None
    [OuterValue 0
       (TensorOf [16%Z; 32%Z] (FloatType F16)
          (Some (SharedEncodingAttr 8 1 1 [1; 0])))] ∅ noTypes =
    (Ok success,
     pushed (TensorOf (reverse [16%Z; 32%Z]) (FloatType F16)
               (Some (SharedEncodingAttr 8 1 1 [0; 1]))) noTypes).
Proof.
  split.
  - apply (proj2 (@TransOp_infers_reversed_shape exampleInterface None ∅
             (OuterValue 0 (TensorOf [2%Z; 3%Z; 5%Z] (FloatType F32) None))
             [] [2%Z; 3%Z; 5%Z] (FloatType F32) noTypes) eq_refl).
  - apply (proj1 (@TransOp_infers_reversed_shape exampleInterface None ∅
             (OuterValue 0
                (TensorOf [16%Z; 32%Z] (FloatType F16)
                   (Some (SharedEncodingAttr 8 1 1 [1; 0]))))
             [] [16%Z; 32%Z] (FloatType F16) noTypes)
           (SharedEncodingAttr 8 1 1 [1; 0])
           (Some (SharedEncodingAttr 8 1 1 [0; 1])) eq_refl eq_refl).
Defined.

Lemma ReduceOp_infers_witness :
  @ReduceOp_inferReturnTypes exampleInterface None
    [OuterValue 0
       (TensorOf [128%Z] (FloatType F32)
          (Some (BlockedEncodingAttr [1] [32] [4] [0])))]
    (reduceAttrs ARGMAX 0) noTypes =
  (Ok success, pushed (IntegerType 32) noTypes).
Proof.
  refine (proj1 (proj2 (@ReduceOp_infers exampleInterface None
            (reduceAttrs ARGMAX 0)
            (OuterValue 0
               (TensorOf [128%Z] (FloatType F32)
                  (Some (BlockedEncodingAttr [1] [32] [4] [0]))))
            [] [128%Z] (FloatType F32)
            (Some (BlockedEncodingAttr [1] [32] [4] [0])) ARGMAX 0%Z noTypes
            eq_refl eq_refl eq_refl _)) eq_refl).
  simpl. lia.
Defined.

Lemma ExpandDims_then_Reduce_witness :
  @ExpandDimsOp_inferReturnTypes exampleInterface None
    [OuterValue 0 (TensorOf [4%Z; 8%Z] (FloatType F32) None)]
    (reduceAttrs (ValueRedOp "ADD") 1) noTypes =
  (Ok success,
   pushed (TensorOf [4%Z; 1%Z; 8%Z] (FloatType F32) None) noTypes) /\
  @ReduceOp_inferReturnTypes exampleInterface None
    [OuterValue 1 (TensorOf [4%Z; 1%Z; 8%Z] (FloatType F32) None)]
    (reduceAttrs (ValueRedOp "ADD") 1) noTypes =
  (Ok success, pushed (TensorOf [4%Z; 8%Z] (FloatType F32) None) noTypes).
Proof.
  pose proof (@ExpandDims_then_Reduce exampleInterface None
    (reduceAttrs (ValueRedOp "ADD") 1)
    (OuterValue 0 (TensorOf [4%Z; 8%Z] (FloatType F32) None)) []
    [4%Z; 8%Z] (FloatType F32) (ValueRedOp "ADD") 1%Z noTypes eq_refl)
    as Hround.
  destruct Hround as [Hexpand Hreduce];
    [discriminate|reflexivity|reflexivity|simpl; lia|].
  split; [exact Hexpand|].
  apply (Hreduce
           (OuterValue 1 (TensorOf [4%Z; 1%Z; 8%Z] (FloatType F32) None)) []
           noTypes eq_refl).
Defined.

Section DotProps.

Variable inferDotOpEncoding :
  Attribute -> nat -> option Attribute -> option Location -> LogicalResult.
Variable location : option Location.
Variable attributes : gmap string AttrValue.
Variable a : Value.
Variable b : Value.
Variable c : Value.
Variable rest : list Value.
Variable aTy : RankedTensorType.
Variable bTy : RankedTensorType.
Variable accTy : RankedTensorType.

Hypothesis a_type : typeOf a = Some (asType aTy).
Hypothesis b_type : typeOf b = Some (asType bTy).
Hypothesis c_type : typeOf c = Some (asType accTy).

(** X17: The dot operation records the accumulator's type as its result type
    before it looks at the operands, so the type is recorded whatever the
    outcome.  When the first operand has no encoding the inference succeeds
    without looking at the second; when only the first has one the run
    stops on the assertion; when both have one the inference succeeds
    exactly when the interface accepts both operands, the first being asked
    first, and no diagnostic is emitted here. *)
Theorem DotOp_infers_accumulator_type st :
  let run :=
    DotOp_inferReturnTypes inferDotOpEncoding location (a :: b :: c :: rest)
      attributes st in
  snd run = pushed (asType accTy) st /\
  (getEncoding aTy = None -> fst run = Ok success) /\
  (is_Some (getEncoding aTy) -> getEncoding bTy = None -> fst run = Abort) /\
  (forall aEnc bEnc,
     getEncoding aTy = Some aEnc -> getEncoding bTy = Some bEnc ->
     fst run =
       Ok (if failed (inferDotOpEncoding aEnc 0 (getEncoding accTy) location)
           then failure
           else inferDotOpEncoding bEnc 1 (getEncoding accTy) location)).
Proof.
  intros run.
  assert (run =
          match getEncoding aTy with
          | Some aEnc =>
              match getEncoding bTy with
              | Some bEnc =>
                  (Ok (if failed (inferDotOpEncoding aEnc 0
                                    (getEncoding accTy) location)
                       then failure
                       else inferDotOpEncoding bEnc 1 (getEncoding accTy)
                              location),
                   pushed (asType accTy) st)
              | None => (Abort, pushed (asType accTy) st)
              end
          | None => (Ok success, pushed (asType accTy) st)
          end) as ->.
  { unfold run, DotOp_inferReturnTypes, bind.
    destruct aTy as [sa ea enca], bTy as [sb eb encb], accTy as [sc ec encc].
    rewrite (operandTensorType_at (a :: b :: c :: rest) 2 c sc ec encc st
               eq_refl c_type).
    cbn [push_back asType getShape getElementType getEncoding].
    rewrite (operandTensorType_at (a :: b :: c :: rest) 0 a sa ea enca _
               eq_refl a_type).
    rewrite (operandTensorType_at (a :: b :: c :: rest) 1 b sb eb encb _
               eq_refl b_type).
    cbn [getEncoding]. destruct enca as [aEnc|]; [|done].
    destruct encb as [bEnc|]; [|done]. cbn [checked ret].
    destruct (inferDotOpEncoding aEnc 0 encc location); [|done].
    by destruct (inferDotOpEncoding bEnc 1 encc location). }
  repeat split.
  - by destruct (getEncoding aTy), (getEncoding bTy).
  - by intros ->.
  - by intros [aEnc ->] ->.
  - by intros aEnc bEnc -> ->.
Qed.

End DotProps.

Lemma DotOp_infers_accumulator_type_witness :
  snd (DotOp_inferReturnTypes (fun _ _ _ _ => failure) None
         [OuterValue 0 (TensorOf [16%Z; 16%Z] (FloatType F16)
                          (Some (BlockedEncodingAttr [1; 1] [1; 32] [4; 1] [1; 0])));
          OuterValue 1 (TensorOf [16%Z; 16%Z] (FloatType F16)
                          (Some (BlockedEncodingAttr [1; 1] [1; 32] [4; 1] [1; 0])));
          OuterValue 2 (TensorOf [16%Z; 16%Z] (FloatType F32) None)]
         ∅ noTypes) =
  pushed (TensorOf [16%Z; 16%Z] (FloatType F32) None) noTypes.
Proof.
  apply (proj1 (DotOp_infers_accumulator_type (fun _ _ _ _ => failure) None ∅
    (OuterValue 0 (TensorOf [16%Z; 16%Z] (FloatType F16)
                     (Some (BlockedEncodingAttr [1; 1] [1; 32] [4; 1] [1; 0]))))
    (OuterValue 1 (TensorOf [16%Z; 16%Z] (FloatType F16)
                     (Some (BlockedEncodingAttr [1; 1] [1; 32] [4; 1] [1; 0]))))
    (OuterValue 2 (TensorOf [16%Z; 16%Z] (FloatType F32) None)) []
    (mkTensor [16%Z; 16%Z] (FloatType F16)
       (Some (BlockedEncodingAttr [1; 1] [1; 32] [4; 1] [1; 0])))
    (mkTensor [16%Z; 16%Z] (FloatType F16)
       (Some (BlockedEncodingAttr [1; 1] [1; 32] [4; 1] [1; 0])))
    (mkTensor [16%Z; 16%Z] (FloatType F32) None)
    eq_refl eq_refl eq_refl noTypes)).
Defined.

End InferenceExtras.

(** ** Legal types and the verdicts of the conversion target *)

Module ConversionExtras.
Import TritonGPUConversion PackingProps.

Section WithConverter.

Variable BlockedEncodingAttr_get :
  list Z -> list nat -> list nat -> nat -> Attribute.
Variable numWarps : nat.

Abbreviation convert := (convertType BlockedEncodingAttr_get numWarps).
Abbreviation legal := (isLegalType BlockedEncodingAttr_get numWarps).
Abbreviation target :=
  (TritonGPUConversionTarget BlockedEncodingAttr_get numWarps).

(** A ranked tensor type without an encoding. *)
Definition isUnencodedTensor (t : Ty) : bool :=
  match t with TensorOf _ _ None => true | _ => false end.

Lemma convert_keeps u : isUnencodedTensor u = false -> convert u = u.
Proof. by destruct u as [| | | | | |shape elt [enc|]]. Qed.

Lemma legal_iff_encoded u :
  legal u = true <-> isUnencodedTensor u = false.
Proof.
  unfold isLegalType. rewrite Ty_eqb_spec. split.
  - intros Heq. by destruct u as [| | | | | |shape elt [enc|]].
  - apply convert_keeps.
Qed.

(** X18: The converter leaves every type but a tensor without encoding as it is
    and gives such a tensor an encoding, whatever the layout builder
    returns.  Hence a type is legal exactly when it is not itself a tensor
    without encoding (a pointer to one is legal), converting twice is
    converting once, and a converted type is always legal. *)
Theorem legal_types t :
  (isUnencodedTensor t = false -> convert t = t) /\
  isUnencodedTensor (convert t) = false /\
  (legal t = true <-> isUnencodedTensor t = false) /\
  convert (convert t) = convert t /\
  legal (convert t) = true.
Proof.
  assert (isUnencodedTensor (convert t) = false) as Hconv.
  { by destruct t as [| | | | | |shape elt [enc|]]. }
  split; [apply convert_keeps|]. split; [done|].
  split; [apply legal_iff_encoded|].
  split; [by apply convert_keeps|by apply legal_iff_encoded].
Qed.

Lemma foldl_andb_forallb {A} (f : A -> bool) (l : list A) (b : bool) :
  foldl (fun acc x => acc && f x) b l = b && forallb f l.
Proof.
  revert b. induction l as [|x l IH]; intros b; simpl.
  - by rewrite andb_true_r.
  - by rewrite IH, andb_assoc.
Qed.

(** The operations of the dynamically legal dialects that have no action of
    their own. *)
Definition isDynamicDialect (d : Dialect) : bool :=
  match d with
  | ArithDialect | MathDialect | TritonDialect | ControlFlowDialect
  | SCFDialect => true
  | _ => false
  end.

Definition allLegal (types : list Ty) : Prop :=
  Forall (fun t => isUnencodedTensor t = false) types.

Lemma isLegalTypes_allLegal types :
  isLegalTypes BlockedEncodingAttr_get numWarps types = true <->
  allLegal types.
Proof.
  unfold isLegalTypes, allLegal. rewrite forallb_forall, Forall_forall.
  split; intros H t Ht.
  - apply legal_iff_encoded, H. by apply list_elem_of_In.
  - apply legal_iff_encoded, H. by apply list_elem_of_In.
Qed.

(** X19: The verdict on an operation of the arith, math, triton, cf or scf
    dialect that is neither on the deny list nor the dot operation: legal
    exactly when no operand type, result type or block argument type of its
    regions is a tensor without encoding, and illegal otherwise. *)
Theorem dialect_legality dialect name operands results regions :
  isDynamicDialect dialect = true ->
  let op := mkOp (OtherOp dialect name) operands results regions in
  (classify target op = IsLegal <->
   allLegal operands /\ allLegal results /\
   Forall (Forall allLegal) regions) /\
  (classify target op <> IsLegal -> classify target op = IsIllegal).
Proof.
  intros Hdialect op.
  assert (classify target op =
          if forallb (isLegalRegion BlockedEncodingAttr_get numWarps) regions
             && isLegalOp BlockedEncodingAttr_get numWarps op
          then IsLegal else IsIllegal) as ->.
  { unfold classify, getOpInfo, op. cbn [getName].
    replace (lookupAction (legalOperations target) (OtherOp dialect name))
      with (@None LegalizationAction) by reflexivity.
    cbn [getDialect].
    replace (lookupAction (legalDialects target) dialect)
      with (Some (Dynamic (dialectLegality BlockedEncodingAttr_get numWarps)))
      by (by destruct dialect).
    unfold dialectLegality. cbn [getRegions].
    rewrite foldl_andb_forallb. simpl. by destruct (_ && _). }
  split.
  - destruct (_ && _) eqn:Hall.
    + split; [intros _|done].
      apply andb_prop in Hall as [Hregions Hop].
      apply andb_prop in Hop as [Hoperands Hresults].
      rewrite !isLegalTypes_allLegal in *. repeat split; try done.
      rewrite forallb_forall in Hregions. apply Forall_forall.
      intros region Hregion. apply list_elem_of_In, Hregions in Hregion.
      unfold isLegalRegion in Hregion. rewrite forallb_forall in Hregion.
      apply Forall_forall. intros block Hblock.
      by apply isLegalTypes_allLegal, Hregion, list_elem_of_In.
    + split; [done|]. intros (Hoperands & Hresults & Hregions). exfalso.
      apply andb_false_iff in Hall as [Hall|Hall].
      * apply not_true_iff_false in Hall. apply Hall.
        apply forallb_forall. intros region Hregion.
        unfold isLegalRegion. apply forallb_forall. intros block Hblock.
        apply isLegalTypes_allLegal.
        rewrite Forall_forall in Hregions.
        apply list_elem_of_In, Hregions in Hregion.
        rewrite Forall_forall in Hregion.
        by apply Hregion, list_elem_of_In.
      * apply not_true_iff_false in Hall. apply Hall.
        unfold isLegalOp, op. cbn [getOperandTypes getResultTypes].
        apply andb_true_intro. by rewrite !isLegalTypes_allLegal.
  - by destruct (_ && _).
Qed.

(** The operations on the deny list. *)
Definition isDenied (k : OpKind) : bool :=
  match k with
  | scf_ExecuteRegionOp | scf_ParallelOp | scf_ReduceOp | scf_ReduceReturnOp
  | arith_CmpIOp | arith_CmpFOp => true
  | _ => false
  end.

(** X20: The fixed verdicts.  An operation on the deny list is illegal whatever
    its types, although its dialect is registered as dynamically legal
    after it; an operation of the TritonGPU dialect is legal whatever its
    types; an operation of a dialect the target does not name has no
    verdict. *)
Theorem fixed_verdicts op :
  (isDenied (getName op) = true -> classify target op = IsIllegal) /\
  (getDialect (getName op) = TritonGPUDialect ->
   classify target op = IsLegal) /\
  (forall name, getDialect (getName op) = OtherDialect name ->
   classify target op = Unknown).
Proof.
  destruct op as [[| | | | | | |dialect opName] operands results regions];
    repeat split; try done; cbn [getName getDialect]; intros; subst; done.
Qed.

End WithConverter.

Lemma dialect_legality_witness :
  classify (TritonGPUConversionTarget blockedOnFirstDim 4)
    (mkOp (OtherOp ArithDialect "addf")
       [TensorOf [8%Z] (FloatType F32) None;
        TensorOf [8%Z] (FloatType F32) None]
       [TensorOf [8%Z] (FloatType F32) None] []) = IsIllegal.
Proof.
  apply (proj2 (dialect_legality blockedOnFirstDim 4 ArithDialect "addf"
                  [TensorOf [8%Z] (FloatType F32) None;
                   TensorOf [8%Z] (FloatType F32) None]
                  [TensorOf [8%Z] (FloatType F32) None] [] eq_refl)).
  discriminate.
Defined.

Lemma fixed_verdicts_witness :
  classify (TritonGPUConversionTarget blockedOnFirstDim 4)
    (mkOp arith_CmpFOp
       [TensorOf [8%Z] (FloatType F32)
          (Some (BlockedEncodingAttr [1] [32] [4] [0]))] [] []) = IsIllegal.
Proof.
  apply (proj1 (fixed_verdicts blockedOnFirstDim 4
                  (mkOp arith_CmpFOp
                     [TensorOf [8%Z] (FloatType F32)
                        (Some (BlockedEncodingAttr [1] [32] [4] [0]))] [] []))).
  reflexivity.
Defined.

End ConversionExtras.
